(** * update53: the update cycle of a Route 53 dynamic-DNS client

    A shallow embedding of [publicip.go] (the address resolver
    [GetPublicIP], [getFromURL], [getFromMetadata]) and of the main file
    (the record [update53], the cycle [updatehostname] and the zone
    resolver [getHostedZoneID]).

    Conventions.
    - A Go [string] is a [string]; a Go [error] is its message, and the
      interface value [nil] is [None].
    - A one-shot channel ([make], one send, [close]) on which the caller
      blocks straight after the launch is the value sent on it.
    - Every call that leaves the process (HTTP, instance metadata,
      Route 53), every send on [errChan] and every log line is recorded, in
      execution order, in a trace of [Event]s; so is the launch of each
      of the two resolvers ([EvGetPublicIP], [EvGetHostedZoneID]).  A log
      line is recorded as its text, without the final newline.
    - What the network answers is read from a [World]; the two functions
      of Go's standard library whose text is outside the repository
      ([net.ParseIP], [strings.TrimSpace]) are the methods of the class
      [GoLib]. *)

From Stdlib Require Import String Ascii List Bool Arith ZArith Lia.
Import ListNotations.
Open Scope string_scope.

(** ** Go values *)

Definition error : Type := string.

(** [errors.New] *)
Definition errors_New (msg : string) : option error := Some msg.

(** [strings.HasSuffix]:
    [len(s) >= len(suffix) && s[len(s)-len(suffix):] == suffix]. *)
Definition HasSuffix (s suffix : string) : bool :=
  Nat.leb (String.length suffix) (String.length s) &&
  (substring (String.length s - String.length suffix)
             (String.length suffix) s =? suffix).

(** The library functions whose source is not part of the repository.
    [ParseIP s] is [true] when [net.ParseIP(s) != nil]. *)
Class GoLib : Type := {
  ParseIP : string -> bool;
  TrimSpace : string -> string
}.

(** ** Data of the program *)

(** [type PublicIP struct { ip string; e error }] *)
Record PublicIP : Type := mkPublicIP {
  ip : string;
  e : option error
}.

(** [type futureAns struct { e error; s string }]; the field [e] is
    [fe] here since [e] is taken by [PublicIP]. *)
Record futureAns : Type := mkFutureAns {
  fe : option error;
  s : string
}.

(** [type update53 struct { ... }] *)
Record update53 : Type := mkUpdate53 {
  previousip : string;
  forceip : string;
  getip : string;
  hostname : string;
  hostedzone : string;
  daemon : bool;
  verbose : bool;
  debug : bool
}.

(** [u53.hostname = h] *)
Definition set_hostname (u53 : update53) (h : string) : update53 :=
  mkUpdate53 (previousip u53) (forceip u53) (getip u53) h
             (hostedzone u53) (daemon u53) (verbose u53) (debug u53).

(** [u53.previousip = p] *)
Definition set_previousip (u53 : update53) (p : string) : update53 :=
  mkUpdate53 p (forceip u53) (getip u53) (hostname u53)
             (hostedzone u53) (daemon u53) (verbose u53) (debug u53).

(** [route53.HostedZone], with the two members the program reads.  The
    SDK types them [*string]; both are required members of the shape, so
    they are modelled as present. *)
Record HostedZone : Type := mkHostedZone {
  Name : string;
  Id : string
}.

(** [route53.ChangeResourceRecordSetsInput] and the structures nested in
    it, with the members the program fills in. *)
Record ResourceRecord : Type := mkResourceRecord {
  Value : string
}.

Record ResourceRecordSet : Type := mkResourceRecordSet {
  rrsName : string;
  rrsType : string;
  ResourceRecords : list ResourceRecord;
  TTL : Z
}.

Record Change : Type := mkChange {
  Action : string;
  chResourceRecordSet : ResourceRecordSet
}.

Record ChangeBatch : Type := mkChangeBatch {
  Changes : list Change;
  Comment : string
}.

Record ChangeResourceRecordSetsInput : Type := mkChangeInput {
  inChangeBatch : ChangeBatch;
  HostedZoneId : string
}.

(** ** The outside world *)

(** What [http.Get] followed by [ioutil.ReadAll] can give. *)
Inductive HttpAnswer : Type :=
| GetFailed (err : error)
| ReadFailed (err : error)
| Body (body : string).

(** The answers of the network during one cycle. *)
Record World : Type := mkWorld {
  http_Get : string -> HttpAnswer;
  GetMetadata : string -> string * option error;
  ListHostedZones : list HostedZone * option error;
  ChangeResourceRecordSets : ChangeResourceRecordSetsInput -> option error
}.

Inductive Event : Type :=
| EvHttpGet (url : string)
| EvGetMetadata (path : string)
| EvGetPublicIP (ip geturl : string)
| EvGetHostedZoneID (host hz : string)
| EvListHostedZones
| EvChangeResourceRecordSets (params : ChangeResourceRecordSetsInput)
| EvErrChan (err : option error)
| EvLog (msg : string).

(** ** publicip.go *)

(** [getFromMetadata] *)
Definition getFromMetadata (w : World) : (string * option error) * list Event :=
  (GetMetadata w "public-ipv4", [EvGetMetadata "public-ipv4"]).

(** [getFromURL] *)
Definition getFromURL `{GoLib} (w : World) (url : string)
  : (string * option error) * list Event :=
  match http_Get w url with
  | GetFailed err =>
      (("", Some ("unable to get public ip details from: " ++ url
                  ++ " error: " ++ err)), [EvHttpGet url])
  | ReadFailed err =>
      (("", Some ("unable to read public ip in response: " ++ err)),
       [EvHttpGet url])
  | Body body => ((TrimSpace body, None), [EvHttpGet url])
  end.

(** The first half of the goroutine of [GetPublicIP]: the candidate
    address and the error of its source (lines 30-41). *)
Definition candidate `{GoLib} (w : World) (ip geturl : string)
  : (string * option error) * list Event :=
  if ip =? "" then
    if negb (geturl =? "") then getFromURL w geturl
    else getFromMetadata w
  else ((ip, None), []).

(** [GetPublicIP]: the value received from the channel it returns, and
    the calls made to produce it. *)
Definition GetPublicIP `{GoLib} (w : World) (ip geturl : string)
  : PublicIP * list Event :=
  let '((ip, err), t) := candidate w ip geturl in
  match err with
  | Some err => (mkPublicIP "" (Some ("error getting public ip: " ++ err)), t)
  | None =>
      if negb (ParseIP ip)
      then (mkPublicIP "" (Some ("unable to parse public ip from: " ++ ip)), t)
      else (mkPublicIP ip None, t)
  end.

(** ** The zone resolver *)

(** The [for ... range resp.HostedZones] loop of [getHostedZoneID] with
    its [break]; the result is the pointer [hzid]. *)
Fixpoint findHostedZone (hostname : string) (zones : list HostedZone)
  : option string :=
  match zones with
  | [] => None
  | hz :: rest =>
      if HasSuffix hostname (Name hz) then Some (Id hz)
      else findHostedZone hostname rest
  end.

(** [getHostedZoneID] *)
Definition getHostedZoneID (w : World) (hostname hz : string)
  : futureAns * list Event :=
  if negb (hz =? "") then (mkFutureAns None hz, [])
  else
    let '(resp, err) := ListHostedZones w in
    match err with
    | Some err => (mkFutureAns (Some err) "", [EvListHostedZones])
    | None =>
        match findHostedZone hostname resp with
        | None =>
            (mkFutureAns (errors_New "unable to find hosted domain details") "",
             [EvListHostedZones])
        | Some hzid => (mkFutureAns None hzid, [EvListHostedZones])
        end
    end.

(** ** The update cycle *)

(** The request built at lines 150-170. *)
Definition changeParams (host addr zone : string)
  : ChangeResourceRecordSetsInput :=
  mkChangeInput
    (mkChangeBatch
       [mkChange "UPSERT"
          (mkResourceRecordSet host "A" [mkResourceRecord addr] 300%Z)]
       "Update53")
    zone.

Definition logIf (cond : bool) (msg : string) : list Event :=
  if cond then [EvLog msg] else [].

(** [updatehostname]: the receiver after the call, and the trace of the
    call. *)
Definition updatehostname `{GoLib} (w : World) (u53 : update53)
  : update53 * list Event :=
  if hostname u53 =? "" then
    (u53, [EvErrChan (errors_New "invalid hostname supplied")])
  else
    let u53 :=
      if negb (HasSuffix (hostname u53) ".")
      then set_hostname u53 (hostname u53 ++ ".") else u53 in
    if negb (forceip u53 =? "") && negb (ParseIP (forceip u53)) then
      (u53, [EvErrChan (Some ("invalid force ip supplied: " ++ forceip u53))])
    else
      let '(publicIP, t1) := GetPublicIP w (forceip u53) (getip u53) in
      match e publicIP with
      | Some err =>
          (u53,
           (EvGetPublicIP (forceip u53) (getip u53)
              :: t1 ++ [EvErrChan (Some err)])%list)
      | None =>
          if previousip u53 =? ip publicIP then
            (u53,
             (EvGetPublicIP (forceip u53) (getip u53)
                :: t1 ++ logIf (verbose u53)
                           "info - public ip has not changed so not updating")%list)
          else
            let '(hzID, t2) :=
              getHostedZoneID w (hostname u53) (hostedzone u53) in
            match fe hzID with
            | Some err =>
                (u53,
                 (EvGetPublicIP (forceip u53) (getip u53)
                    :: t1 ++ EvGetHostedZoneID (hostname u53) (hostedzone u53)
                    :: t2 ++ [EvErrChan (Some err)])%list)
            | None =>
                let params :=
                  changeParams (hostname u53) (ip publicIP) (s hzID) in
                let err := ChangeResourceRecordSets w params in
                (set_previousip u53 (ip publicIP),
                 (EvGetPublicIP (forceip u53) (getip u53)
                     :: t1 ++ EvGetHostedZoneID (hostname u53) (hostedzone u53)
                     :: t2
                     ++ [EvChangeResourceRecordSets params; EvErrChan err]
                     ++ logIf (verbose u53)
                          ("info - updated ip cache. new: " ++ ip publicIP
                           ++ " old: " ++ previousip u53)%string)%list)
            end
      end.

(** The receiver that [main] builds from the flags: [&update53{}] filled
    in by [flag.Parse], then [verbose] forced by [debug]. *)
Definition main_u53 (forceip getip hostname hostedzone : string)
           (daemon verbose debug : bool) : update53 :=
  mkUpdate53 "" forceip getip hostname hostedzone daemon
             (if debug then true else verbose) debug.

(** ** Reading a trace *)

(** The values sent on [errChan]. *)
Fixpoint sends (t : list Event) : list (option error) :=
  match t with
  | [] => []
  | EvErrChan err :: t => err :: sends t
  | _ :: t => sends t
  end.

(** The requests submitted to [ChangeResourceRecordSets]. *)
Fixpoint mutations (t : list Event) : list ChangeResourceRecordSetsInput :=
  match t with
  | [] => []
  | EvChangeResourceRecordSets params :: t => params :: mutations t
  | _ :: t => mutations t
  end.

(** The launches of the zone resolver. *)
Fixpoint zoneLookups (t : list Event) : list (string * string) :=
  match t with
  | [] => []
  | EvGetHostedZoneID host hz :: t => (host, hz) :: zoneLookups t
  | _ :: t => zoneLookups t
  end.

(** Is the event a call to an address source or to Route 53? *)
Definition isNetworkCall (ev : Event) : bool :=
  match ev with
  | EvHttpGet _ | EvGetMetadata _ | EvListHostedZones
  | EvChangeResourceRecordSets _ => true
  | _ => false
  end.

(** The hostname as lines 108-110 leave it. *)
Definition normalized (host : string) : string :=
  if HasSuffix host "." then host else host ++ ".".

(** The cycle gets as far as line 133 and the test there holds: the
    hostname and the forced address pass, the resolver succeeds, and the
    address it gives is the cached one. *)
Definition unchanged `{GoLib} (w : World) (u53 : update53) : bool :=
  negb (hostname u53 =? "") &&
  ((forceip u53 =? "") || ParseIP (forceip u53)) &&
  match e (fst (GetPublicIP w (forceip u53) (getip u53))) with
  | Some _ => false
  | None =>
      previousip u53 =? ip (fst (GetPublicIP w (forceip u53) (getip u53)))
  end.

(** The six ways through [updatehostname], each with the tests that lead
    to it, the receiver it leaves and the trace it produces. *)
Inductive Cycle `{GoLib} (w : World) (u53 : update53)
  : update53 * list Event -> Prop :=
| CycleNoHostname :
    hostname u53 = "" ->
    Cycle w u53 (u53, [EvErrChan (Some "invalid hostname supplied")])
| CycleBadForceIP :
    hostname u53 <> "" ->
    forceip u53 <> "" -> ParseIP (forceip u53) = false ->
    Cycle w u53
      (set_hostname u53 (normalized (hostname u53)),
       [EvErrChan (Some ("invalid force ip supplied: " ++ forceip u53))])
| CycleAddressError (r : PublicIP) (t1 : list Event) (err : error) :
    hostname u53 <> "" ->
    forceip u53 = "" \/ ParseIP (forceip u53) = true ->
    GetPublicIP w (forceip u53) (getip u53) = (r, t1) ->
    e r = Some err ->
    Cycle w u53
      (set_hostname u53 (normalized (hostname u53)),
       (EvGetPublicIP (forceip u53) (getip u53)
          :: t1 ++ [EvErrChan (Some err)])%list)
| CycleNoChange (r : PublicIP) (t1 : list Event) :
    hostname u53 <> "" ->
    forceip u53 = "" \/ ParseIP (forceip u53) = true ->
    GetPublicIP w (forceip u53) (getip u53) = (r, t1) ->
    e r = None ->
    previousip u53 = ip r ->
    Cycle w u53
      (set_hostname u53 (normalized (hostname u53)),
       (EvGetPublicIP (forceip u53) (getip u53)
          :: t1 ++ logIf (verbose u53)
                     "info - public ip has not changed so not updating")%list)
| CycleZoneError (r : PublicIP) (t1 : list Event)
                 (z : futureAns) (t2 : list Event) (err : error) :
    hostname u53 <> "" ->
    forceip u53 = "" \/ ParseIP (forceip u53) = true ->
    GetPublicIP w (forceip u53) (getip u53) = (r, t1) ->
    e r = None ->
    previousip u53 <> ip r ->
    getHostedZoneID w (normalized (hostname u53)) (hostedzone u53) = (z, t2) ->
    fe z = Some err ->
    Cycle w u53
      (set_hostname u53 (normalized (hostname u53)),
       (EvGetPublicIP (forceip u53) (getip u53)
          :: t1
          ++ EvGetHostedZoneID (normalized (hostname u53)) (hostedzone u53)
          :: t2 ++ [EvErrChan (Some err)])%list)
| CycleSubmitted (r : PublicIP) (t1 : list Event)
                 (z : futureAns) (t2 : list Event) :
    hostname u53 <> "" ->
    forceip u53 = "" \/ ParseIP (forceip u53) = true ->
    GetPublicIP w (forceip u53) (getip u53) = (r, t1) ->
    e r = None ->
    previousip u53 <> ip r ->
    getHostedZoneID w (normalized (hostname u53)) (hostedzone u53) = (z, t2) ->
    fe z = None ->
    Cycle w u53
      (set_previousip (set_hostname u53 (normalized (hostname u53))) (ip r),
       (EvGetPublicIP (forceip u53) (getip u53)
          :: t1
          ++ EvGetHostedZoneID (normalized (hostname u53)) (hostedzone u53)
          :: t2
          ++ [EvChangeResourceRecordSets
                (changeParams (normalized (hostname u53)) (ip r) (s z));
              EvErrChan
                (ChangeResourceRecordSets w
                   (changeParams (normalized (hostname u53)) (ip r) (s z)))]
          ++ logIf (verbose u53)
               ("info - updated ip cache. new: " ++ ip r
                ++ " old: " ++ previousip u53)%string)%list).

(** ** A library and worlds to run the program on *)

Definition isDigit (c : ascii) : bool :=
  Nat.leb 48 (nat_of_ascii c) && Nat.leb (nat_of_ascii c) 57.

(** The pieces of [str] between the occurrences of [sep]. *)
Fixpoint fields (sep : ascii) (str : string) : list string :=
  match str with
  | EmptyString => [EmptyString]
  | String c rest =>
      if Ascii.eqb c sep then EmptyString :: fields sep rest
      else match fields sep rest with
           | [] => [String c EmptyString]
           | f :: fs => String c f :: fs
           end
  end.

Fixpoint decimal (acc : nat) (str : string) : option nat :=
  match str with
  | EmptyString => Some acc
  | String c rest =>
      if isDigit c then decimal (10 * acc + (nat_of_ascii c - 48)) rest
      else None
  end.

(** One to three digits, no leading zero, at most 255. *)
Definition octet (str : string) : bool :=
  match str with
  | EmptyString => false
  | String c rest =>
      Nat.leb (String.length str) 3 &&
      negb (Ascii.eqb c "0" && negb (rest =? "")) &&
      match decimal 0 str with
      | Some n => Nat.leb n 255
      | None => false
      end
  end.

(** The dotted quads [d.d.d.d] in canonical form.  [net.ParseIP] accepts
    each of them; it accepts more (IPv6 literals), so this recognizer
    only stands for it at the addresses of the examples below. *)
Definition dottedQuad (str : string) : bool :=
  match fields "." str with
  | [a; b; c; d] => octet a && octet b && octet c && octet d
  | _ => false
  end.

Definition isSpace (c : ascii) : bool :=
  let n := nat_of_ascii c in
  (Nat.leb 9 n && Nat.leb n 13) || Nat.eqb n 32.

Fixpoint trimLeft (str : string) : string :=
  match str with
  | EmptyString => EmptyString
  | String c rest => if isSpace c then trimLeft rest else str
  end.

Fixpoint trimRight (str : string) : string :=
  match str with
  | EmptyString => EmptyString
  | String c rest =>
      match trimRight rest with
      | EmptyString => if isSpace c then EmptyString else String c EmptyString
      | rest' => String c rest'
      end
  end.

(** The library at which the examples are run: [GoLib] on ASCII text
    holding IPv4 addresses. *)
Definition asciiV4 : GoLib :=
  {| ParseIP := dottedQuad;
     TrimSpace := fun str => trimRight (trimLeft str) |}.

(** A network with no address source, on which Route 53 lists [zones]
    and answers [result] to every change. *)
Definition route53Only (zones : list HostedZone) (result : option error)
  : World :=
  {| http_Get := fun _ => GetFailed "connection refused";
     GetMetadata := fun _ => ("", Some "EC2MetadataRequestError");
     ListHostedZones := (zones, None);
     ChangeResourceRecordSets := fun _ => result |}.

(** A network on which the URL source serves [body], the metadata
    service serves [meta], and Route 53 is as in [route53Only]. *)
Definition servedWorld (body meta : string) (zones : list HostedZone)
           (result : option error) : World :=
  {| http_Get := fun _ => Body body;
     GetMetadata := fun _ => (meta, None);
     ListHostedZones := (zones, None);
     ChangeResourceRecordSets := fun _ => result |}.

(** The configuration of the end-to-end scenario. *)
Definition homeConfig : update53 :=
  main_u53 "203.0.113.5" "" "home.example.com" "" false false false.

(** ** Cycles in sequence *)

(** The cycles of a daemon that finish one before the next starts, each
    on the network of its moment; the traces are put end to end. *)
Fixpoint cycles `{GoLib} (ws : list World) (u53 : update53)
  : update53 * list Event :=
  match ws with
  | [] => (u53, [])
  | w :: ws =>
      let '(u53, t) := updatehostname w u53 in
      let '(u53, t') := cycles ws u53 in
      (u53, (t ++ t')%list)
  end.

(** The events of a trace that are no log lines. *)
Definition isLog (ev : Event) : bool :=
  match ev with
  | EvLog _ => true
  | _ => false
  end.

(** ** main *)

(** What the [select] of the loop of [main] receives in one iteration: a
    tick of the five-minute ticker, the value a cycle sent on [errChan],
    or a signal (by its name, as [log.Println] prints it). *)
Inductive Selected : Type :=
| Tick
| Result (err : option error)
| Signal (sig : string).

(** What [main] does: [go u53.updatehostname(errChan)], a line given to
    [log] (without the final newline), the end of the process. *)
Inductive MainAction : Type :=
| Launch
| LogLine (msg : string).

(** How far [main] has got when the events run out: blocked in [select],
    or ended with an exit status ([os.Exit(1)], or 0 on return). *)
Inductive Status : Type :=
| Waiting
| Exited (code : nat).

Definition mainLog (cond : bool) (msg : string) : list MainAction :=
  if cond then [LogLine msg] else [].

(** One pass through the [select] (lines 72-89): what is done, and the
    value of [dowhile] after it. *)
Definition selectCase (u53 : update53) (ev : Selected) : list MainAction * bool :=
  match ev with
  | Tick =>
      ((mainLog (debug u53) "debug - tick Chan triggered" ++ [Launch])%list,
       true)
  | Result err =>
      (match err with
       | Some err => [LogLine ("warning - error updating route53: " ++ err)]
       | None => []
       end, true)
  | Signal sig =>
      (mainLog (verbose u53)
         (String "010" "Shutting down on signal: " ++ sig), false)
  end.

(** The [for dowhile == true] loop (lines 70-93) and the lines after it,
    on the events its [select] receives.  The fields it reads ([debug],
    [verbose], [daemon]) are not written by the cycles that run beside
    it, so the receiver is the one the loop was started with. *)
Fixpoint mainLoop (u53 : update53) (evs : list Selected)
  : list MainAction * Status :=
  match evs with
  | [] => ([], Waiting)
  | ev :: evs =>
      let '(acts, dowhile) := selectCase u53 ev in
      let dowhile := if negb (daemon u53) then false else dowhile in
      if dowhile then
        let '(more, st) := mainLoop u53 evs in ((acts ++ more)%list, st)
      else ((acts ++ mainLog (verbose u53) "Program Exiting")%list, Exited 0)
  end.

(** [main], from the values of the flags. *)
Definition main (forceip getip hostname hostedzone : string)
           (daemon verbose debug : bool) (evs : list Selected)
  : list MainAction * Status :=
  let u53 := main_u53 forceip getip hostname hostedzone daemon verbose debug in
  if negb (forceip =? "") && negb (getip =? "") then
    ([LogLine "error - can not supply both -forceip and -getip"], Exited 1)
  else
    let '(acts, st) := mainLoop u53 evs in (Launch :: acts, st).

(** The cycles launched and the warnings logged. *)
Fixpoint launches (acts : list MainAction) : nat :=
  match acts with
  | [] => 0
  | Launch :: acts => S (launches acts)
  | _ :: acts => launches acts
  end.

Fixpoint ticks (evs : list Selected) : nat :=
  match evs with
  | [] => 0
  | Tick :: evs => S (ticks evs)
  | _ :: evs => ticks evs
  end.

Definition isSignal (ev : Selected) : bool :=
  match ev with
  | Signal _ => true
  | _ => false
  end.

(** * Properties *)

(** ** Strings and traces *)

Lemma eqb_empty_false (str : string) : str <> "" -> (str =? "") = false.
Proof. intro Hne. apply String.eqb_neq. exact Hne. Qed.

Lemma sends_app (t1 t2 : list Event) :
  sends (t1 ++ t2) = (sends t1 ++ sends t2)%list.
Proof.
  induction t1 as [|ev t1 IH]; simpl; [reflexivity|].
  destruct ev; simpl; rewrite IH; reflexivity.
Qed.

Lemma mutations_app (t1 t2 : list Event) :
  mutations (t1 ++ t2) = (mutations t1 ++ mutations t2)%list.
Proof.
  induction t1 as [|ev t1 IH]; simpl; [reflexivity|].
  destruct ev; simpl; rewrite IH; reflexivity.
Qed.

Lemma zoneLookups_app (t1 t2 : list Event) :
  zoneLookups (t1 ++ t2) = (zoneLookups t1 ++ zoneLookups t2)%list.
Proof.
  induction t1 as [|ev t1 IH]; simpl; [reflexivity|].
  destruct ev; simpl; rewrite IH; reflexivity.
Qed.

Lemma logIf_silent (cond : bool) (msg : string) :
  sends (logIf cond msg) = [] /\ mutations (logIf cond msg) = [] /\
  zoneLookups (logIf cond msg) = [].
Proof. destruct cond; repeat split. Qed.

(** ** The address resolver *)

Lemma candidate_override `{GoLib} (w : World) (ip0 geturl : string) :
  ip0 <> "" -> candidate w ip0 geturl = ((ip0, None), []).
Proof.
  intro Hne. unfold candidate. rewrite (eqb_empty_false _ Hne). reflexivity.
Qed.

(** The address resolver only ever talks to its two sources. *)
Lemma candidate_trace `{GoLib} (w : World) (ip0 geturl : string) :
  let t := snd (candidate w ip0 geturl) in
  sends t = [] /\ mutations t = [] /\ zoneLookups t = [] /\
  ~ In EvListHostedZones t.
Proof.
  unfold candidate, getFromURL, getFromMetadata.
  destruct (ip0 =? ""); [destruct (geturl =? ""); simpl|simpl].
  - repeat split. intros [Hin|[]]. discriminate Hin.
  - destruct (http_Get w geturl); simpl; repeat split;
      intros [Hin|[]]; discriminate Hin.
  - repeat split. intros [].
Qed.

Lemma GetPublicIP_trace `{GoLib} (w : World) (ip0 geturl : string) :
  snd (GetPublicIP w ip0 geturl) = snd (candidate w ip0 geturl).
Proof.
  unfold GetPublicIP.
  destruct (candidate w ip0 geturl) as [[c err] t]. simpl.
  destruct err; [reflexivity|]. destruct (ParseIP c); reflexivity.
Qed.

(** A result without error carries an address that parses. *)
Lemma GetPublicIP_valid `{GoLib} (w : World) (ip0 geturl : string) :
  e (fst (GetPublicIP w ip0 geturl)) = None ->
  ParseIP (ip (fst (GetPublicIP w ip0 geturl))) = true.
Proof.
  unfold GetPublicIP.
  destruct (candidate w ip0 geturl) as [[c err] t].
  destruct err; simpl; [discriminate|].
  destruct (ParseIP c) eqn:Hp; simpl; [intros _; exact Hp|discriminate].
Qed.

(** An override that parses is the result. *)
Lemma override_address `{GoLib} (w : World) (ip0 geturl : string) :
  ip0 <> "" -> ParseIP ip0 = true ->
  fst (GetPublicIP w ip0 geturl) = mkPublicIP ip0 None.
Proof.
  intros Hne Hp. unfold GetPublicIP.
  rewrite (candidate_override w ip0 geturl Hne), Hp. reflexivity.
Qed.

(** C5. A non-empty override is the candidate as it stands, whatever the
    source URL is: no call is made (the trace is empty, and the result is
    the same on every network), and the result is the override with no
    error when the override parses, the parse error on the override
    otherwise. *)
Theorem override_used_verbatim `{GoLib} (w : World) (ip0 geturl : string) :
  ip0 <> "" ->
  candidate w ip0 geturl = ((ip0, None), []) /\
  snd (GetPublicIP w ip0 geturl) = [] /\
  (forall w', GetPublicIP w' ip0 geturl = GetPublicIP w ip0 geturl) /\
  (ParseIP ip0 = true ->
   fst (GetPublicIP w ip0 geturl) = mkPublicIP ip0 None) /\
  (ParseIP ip0 = false ->
   fst (GetPublicIP w ip0 geturl) =
   mkPublicIP "" (Some ("unable to parse public ip from: " ++ ip0))).
Proof.
  intro Hne. split; [apply candidate_override; exact Hne|].
  unfold GetPublicIP.
  split; [|split; [|split]].
  - rewrite (candidate_override w ip0 geturl Hne).
    destruct (ParseIP ip0); reflexivity.
  - intro w'. rewrite !candidate_override by exact Hne. reflexivity.
  - intro Hp. rewrite (candidate_override w ip0 geturl Hne), Hp. reflexivity.
  - intro Hp. rewrite (candidate_override w ip0 geturl Hne), Hp. reflexivity.
Qed.

Lemma override_used_verbatim_witness :
  @GetPublicIP asciiV4
    (servedWorld "198.51.100.7" "192.0.2.9" [] None)
    "203.0.113.5" "http://ip.example.net/"
  = (mkPublicIP "203.0.113.5" None, []).
Proof.
  pose proof (@override_used_verbatim asciiV4
                (servedWorld "198.51.100.7" "192.0.2.9" [] None)
                "203.0.113.5" "http://ip.example.net/") as Hthm.
  destruct Hthm as (_ & Htrace & _ & Hok & _); [discriminate|].
  rewrite (surjective_pairing (GetPublicIP _ _ _)).
  rewrite Htrace, Hok by reflexivity. reflexivity.
Defined.

(** C6. Whichever of the three sources the candidate comes from (the
    override, the trimmed body served at the URL, the text of the
    metadata service), a candidate that does not parse gives the error
    "unable to parse public ip from: <candidate>", with an empty address. *)
Theorem unparsable_candidate_rejected `{GoLib}
        (w : World) (ip0 geturl c : string) :
  ParseIP c = false ->
  (ip0 <> "" /\ c = ip0) \/
  (ip0 = "" /\ geturl <> "" /\
   exists body, http_Get w geturl = Body body /\ c = TrimSpace body) \/
  (ip0 = "" /\ geturl = "" /\ GetMetadata w "public-ipv4" = (c, None)) ->
  fst (GetPublicIP w ip0 geturl) =
  mkPublicIP "" (Some ("unable to parse public ip from: " ++ c)).
Proof.
  intros Hp Hsrc. unfold GetPublicIP.
  destruct Hsrc as [[Hne Hc]|[(He & Hu & body & Hget & Hc)|(He & Hu & Hmd)]].
  - subst c. rewrite (candidate_override w ip0 geturl Hne), Hp. reflexivity.
  - subst ip0. unfold candidate, getFromURL.
    rewrite (eqb_empty_false _ Hu), Hget. simpl. rewrite <- Hc, Hp.
    reflexivity.
  - subst ip0 geturl. unfold candidate, getFromMetadata. simpl.
    rewrite Hmd, Hp. reflexivity.
Qed.

Lemma unparsable_candidate_rejected_witness :
  fst (@GetPublicIP asciiV4 (servedWorld " not-an-ip " "" [] None)
         "" "http://ip.example.net/") =
  mkPublicIP "" (Some "unable to parse public ip from: not-an-ip") /\
  fst (@GetPublicIP asciiV4 (servedWorld "" "" [] None) "999.1.1.1" "") =
  mkPublicIP "" (Some "unable to parse public ip from: 999.1.1.1").
Proof.
  split.
  - apply (@unparsable_candidate_rejected asciiV4
             (servedWorld " not-an-ip " "" [] None)
             "" "http://ip.example.net/" "not-an-ip").
    + reflexivity.
    + right; left. split; [reflexivity|]. split; [discriminate|].
      exists " not-an-ip ". split; reflexivity.
  - apply (@unparsable_candidate_rejected asciiV4
             (servedWorld "" "" [] None) "999.1.1.1" "" "999.1.1.1").
    + reflexivity.
    + left. split; [discriminate|reflexivity].
Defined.

(** ** The zone resolver *)

(** The loop stops at the first zone whose name ends the hostname. *)
Lemma findHostedZone_first (host : string) (pre post : list HostedZone)
      (z : HostedZone) :
  Forall (fun hz => HasSuffix host (Name hz) = false) pre ->
  HasSuffix host (Name z) = true ->
  findHostedZone host (pre ++ z :: post)%list = Some (Id z).
Proof.
  intros Hpre Hz. induction Hpre as [|hz pre Hhz _ IH]; simpl.
  - rewrite Hz. reflexivity.
  - rewrite Hhz. exact IH.
Qed.

(** The loop finds nothing exactly when no name ends the hostname. *)
Lemma findHostedZone_none (host : string) (zones : list HostedZone) :
  findHostedZone host zones = None <->
  Forall (fun hz => HasSuffix host (Name hz) = false) zones.
Proof.
  induction zones as [|hz zones IH]; simpl.
  - split; [constructor|reflexivity].
  - destruct (HasSuffix host (Name hz)) eqn:Hs.
    + split; [discriminate|]. intro Hall. inversion Hall; congruence.
    + rewrite IH. split; [intro Hall; constructor; assumption|].
      intro Hall. inversion Hall; assumption.
Qed.

Lemma getHostedZoneID_trace (w : World) (host hz : string) :
  let t := snd (getHostedZoneID w host hz) in
  sends t = [] /\ mutations t = [] /\ zoneLookups t = [].
Proof.
  unfold getHostedZoneID.
  destruct (hz =? ""); simpl; [|repeat split].
  destruct (ListHostedZones w) as [resp [err|]]; [repeat split|].
  destruct (findHostedZone host resp); repeat split.
Qed.

(** C4. With no zone id supplied and a listing that succeeds, the zone
    resolver answers the id of the first listed zone whose name is a
    suffix of the hostname, whatever zones follow it, after one listing
    call; so on example.com. (Z1) listed before sub.example.com. (Z2) the
    answer for host.sub.example.com. is Z1, although the name of Z2 is a
    suffix of the hostname too, and a longer one. *)
Theorem first_matching_zone_wins (w : World) (host : string)
        (pre post : list HostedZone) (z : HostedZone) :
  ListHostedZones w = ((pre ++ z :: post)%list, None) ->
  Forall (fun hz => HasSuffix host (Name hz) = false) pre ->
  HasSuffix host (Name z) = true ->
  getHostedZoneID w host "" = (mkFutureAns None (Id z), [EvListHostedZones])
  /\
  (let zones := [mkHostedZone "example.com." "Z1";
                 mkHostedZone "sub.example.com." "Z2"] in
   forall result,
     fst (getHostedZoneID (route53Only zones result)
                          "host.sub.example.com." "") =
     mkFutureAns None "Z1" /\
     HasSuffix "host.sub.example.com." "sub.example.com." = true /\
     (String.length "example.com." < String.length "sub.example.com.")%nat).
Proof.
  intros Hlist Hpre Hz. split.
  - unfold getHostedZoneID. simpl. rewrite Hlist.
    rewrite (findHostedZone_first host pre post z Hpre Hz). reflexivity.
  - intros zones result. split; [reflexivity|]. split; [reflexivity|].
    simpl. lia.
Qed.

Lemma first_matching_zone_wins_witness :
  getHostedZoneID
    (route53Only [mkHostedZone "example.org." "Z0";
                  mkHostedZone "example.com." "Z1";
                  mkHostedZone "sub.example.com." "Z2"] None)
    "host.sub.example.com." ""
  = (mkFutureAns None "Z1", [EvListHostedZones]).
Proof.
  apply (first_matching_zone_wins
           (route53Only [mkHostedZone "example.org." "Z0";
                         mkHostedZone "example.com." "Z1";
                         mkHostedZone "sub.example.com." "Z2"] None)
           "host.sub.example.com."
           [mkHostedZone "example.org." "Z0"]
           [mkHostedZone "sub.example.com." "Z2"]
           (mkHostedZone "example.com." "Z1")).
  - reflexivity.
  - repeat constructor.
  - reflexivity.
Defined.

(** C10. In every result of the two resolvers the error and the string
    exclude each other: with an error the string is empty, and an address
    result without error carries a string that parses as an IP literal. *)
Theorem results_error_xor_value `{GoLib} (w : World)
        (ip0 geturl host hz : string) :
  let r := fst (GetPublicIP w ip0 geturl) in
  let z := fst (getHostedZoneID w host hz) in
  (forall err, e r = Some err -> ip r = "") /\
  (e r = None -> ParseIP (ip r) = true) /\
  (forall err, fe z = Some err -> s z = "").
Proof.
  split; [|split].
  - unfold GetPublicIP.
    destruct (candidate w ip0 geturl) as [[c err0] t].
    destruct err0; simpl; [reflexivity|].
    destruct (ParseIP c); simpl; [discriminate|reflexivity].
  - apply GetPublicIP_valid.
  - unfold getHostedZoneID.
    destruct (hz =? ""); simpl; [|discriminate].
    destruct (ListHostedZones w) as [resp [err0|]]; [reflexivity|].
    destruct (findHostedZone host resp); simpl; [discriminate|reflexivity].
Qed.

Lemma results_error_xor_value_witness :
  ip (fst (@GetPublicIP asciiV4 (route53Only [] None) "" "")) = "" /\
  @ParseIP asciiV4
    (ip (fst (@GetPublicIP asciiV4 (servedWorld "" "192.0.2.9" [] None)
                "" ""))) = true /\
  s (fst (getHostedZoneID (route53Only [] None) "home.example.com." ""))
  = "".
Proof.
  split; [|split].
  - apply (proj1 (@results_error_xor_value asciiV4 (route53Only [] None)
                    "" "" "" "")
                 "error getting public ip: EC2MetadataRequestError").
    reflexivity.
  - apply (proj1 (proj2 (@results_error_xor_value asciiV4
                           (servedWorld "" "192.0.2.9" [] None)
                           "" "" "" ""))).
    reflexivity.
  - apply (proj2 (proj2 (@results_error_xor_value asciiV4
                           (route53Only [] None)
                           "" "" "home.example.com." ""))
                 "unable to find hosted domain details").
    reflexivity.
Defined.

(** ** The update cycle *)

Lemma normalize_receiver (u53 : update53) :
  (if negb (HasSuffix (hostname u53) ".")
   then set_hostname u53 (hostname u53 ++ ".") else u53)
  = set_hostname u53 (normalized (hostname u53)).
Proof.
  unfold normalized. destruct (HasSuffix (hostname u53) "."); simpl.
  - destruct u53; reflexivity.
  - reflexivity.
Qed.

(** Every call of [updatehostname] goes one of the six ways. *)
Lemma updatehostname_Cycle `{GoLib} (w : World) (u53 : update53) :
  Cycle w u53 (updatehostname w u53).
Proof.
  unfold updatehostname.
  destruct (hostname u53 =? "") eqn:Hh.
  { apply String.eqb_eq in Hh. apply CycleNoHostname. exact Hh. }
  apply String.eqb_neq in Hh.
  rewrite normalize_receiver. cbn [forceip getip previousip hostname
                                   hostedzone verbose set_hostname].
  destruct (forceip u53 =? "") eqn:Hf; cbn [negb andb].
  - apply String.eqb_eq in Hf.
    destruct (GetPublicIP w (forceip u53) (getip u53)) as [r t1] eqn:Hr.
    destruct (e r) as [err|] eqn:He.
    { eapply CycleAddressError; eauto. }
    destruct (previousip u53 =? ip r) eqn:Hp.
    { apply String.eqb_eq in Hp. eapply CycleNoChange; eauto. }
    apply String.eqb_neq in Hp.
    destruct (getHostedZoneID w (normalized (hostname u53)) (hostedzone u53))
      as [z t2] eqn:Hz.
    destruct (fe z) as [err|] eqn:Hfe.
    + eapply CycleZoneError; eauto.
    + eapply CycleSubmitted; eauto.
  - apply String.eqb_neq in Hf.
    destruct (ParseIP (forceip u53)) eqn:Hv; cbn [negb].
    2:{ apply CycleBadForceIP; assumption. }
    destruct (GetPublicIP w (forceip u53) (getip u53)) as [r t1] eqn:Hr.
    destruct (e r) as [err|] eqn:He.
    { eapply CycleAddressError; eauto. }
    destruct (previousip u53 =? ip r) eqn:Hp.
    { apply String.eqb_eq in Hp. eapply CycleNoChange; eauto. }
    apply String.eqb_neq in Hp.
    destruct (getHostedZoneID w (normalized (hostname u53)) (hostedzone u53))
      as [z t2] eqn:Hz.
    destruct (fe z) as [err|] eqn:Hfe.
    + eapply CycleZoneError; eauto.
    + eapply CycleSubmitted; eauto.
Qed.

Lemma resolver_silent `{GoLib} (w : World) (ip0 geturl : string)
      (r : PublicIP) (t1 : list Event) :
  GetPublicIP w ip0 geturl = (r, t1) ->
  sends t1 = [] /\ mutations t1 = [] /\ zoneLookups t1 = [] /\
  ~ In EvListHostedZones t1.
Proof.
  intro Hr. replace t1 with (snd (GetPublicIP w ip0 geturl))
    by (rewrite Hr; reflexivity).
  rewrite GetPublicIP_trace. apply candidate_trace.
Qed.

Lemma zone_silent (w : World) (host hz : string)
      (z : futureAns) (t2 : list Event) :
  getHostedZoneID w host hz = (z, t2) ->
  sends t2 = [] /\ mutations t2 = [] /\ zoneLookups t2 = [].
Proof.
  intro Hz. replace t2 with (snd (getHostedZoneID w host hz))
    by (rewrite Hz; reflexivity).
  apply getHostedZoneID_trace.
Qed.

(** Reads a trace built from the resolvers' traces, whose readings are
    among the hypotheses. *)
Ltac read_trace :=
  cbn [sends mutations zoneLookups];
  rewrite ?sends_app, ?mutations_app, ?zoneLookups_app;
  cbn [sends mutations zoneLookups];
  rewrite ?sends_app, ?mutations_app, ?zoneLookups_app;
  cbn [sends mutations zoneLookups];
  repeat match goal with
         | Hs : sends ?t = [] |- context [sends ?t] => rewrite Hs
         | Hm : mutations ?t = [] |- context [mutations ?t] => rewrite Hm
         | Hl : zoneLookups ?t = [] |- context [zoneLookups ?t] => rewrite Hl
         | |- context [sends (logIf ?c ?m)] =>
             rewrite (proj1 (logIf_silent c m))
         | |- context [mutations (logIf ?c ?m)] =>
             rewrite (proj1 (proj2 (logIf_silent c m)))
         | |- context [zoneLookups (logIf ?c ?m)] =>
             rewrite (proj2 (proj2 (logIf_silent c m)))
         end;
  cbn [app].

(** Brings the readings of the two resolvers' traces among the
    hypotheses. *)
Ltac resolver_facts :=
  repeat match goal with
         | Hr : GetPublicIP _ _ _ = (_, _) |- _ =>
             let Hs := fresh "Hsend" in
             let Hm := fresh "Hmut" in
             let Hl := fresh "Hlook" in
             let Hn := fresh "Hlist" in
             destruct (resolver_silent _ _ _ _ _ Hr) as (Hs & Hm & Hl & Hn);
             revert Hr
         | Hz : getHostedZoneID _ _ _ = (_, _) |- _ =>
             let Hs := fresh "Hsend" in
             let Hm := fresh "Hmut" in
             let Hl := fresh "Hlook" in
             destruct (zone_silent _ _ _ _ _ Hz) as (Hs & Hm & Hl);
             revert Hz
         end;
  intros.

(** C8. In a cycle whose address resolution fails, no zone lookup is
    launched, no zones are listed and no change is submitted, and exactly
    one value, an error, is sent on the error channel; when the cycle has
    got as far as the address resolver (the hostname is not empty and the
    forced address, if any, parses) that value is the resolver's error. *)
Theorem address_error_stops_cycle `{GoLib} (w : World) (u53 : update53)
        (err : error) :
  e (fst (GetPublicIP w (forceip u53) (getip u53))) = Some err ->
  let t := snd (updatehostname w u53) in
  zoneLookups t = [] /\ ~ In EvListHostedZones t /\ mutations t = [] /\
  (exists err', sends t = [Some err']) /\
  (hostname u53 <> "" ->
   forceip u53 = "" \/ ParseIP (forceip u53) = true ->
   In (EvGetPublicIP (forceip u53) (getip u53)) t /\ sends t = [Some err]).
Proof.
  intros Herr t. subst t.
  destruct (updatehostname_Cycle w u53)
    as [Hh|_ Hf Hv|r t1 err' _ _ Hr He|r t1 _ _ Hr He _
        |r t1 z t2 err' _ _ Hr He _ _ _|r t1 z t2 _ _ Hr He _ _ _];
    try (rewrite Hr in Herr; cbn [fst] in Herr; congruence).
  - cbn. split; [reflexivity|]. split.
    { intros [Hin|[]]; discriminate Hin. }
    split; [reflexivity|]. split; [eauto|]. intros Hne. contradiction.
  - cbn. split; [reflexivity|]. split.
    { intros [Hin|[]]; discriminate Hin. }
    split; [reflexivity|]. split; [eauto|].
    intros _ [Hpre|Hpre]; congruence.
  - rewrite Hr in Herr. cbn [fst] in Herr.
    assert (err' = err) by congruence. subst err'.
    resolver_facts. cbn [snd]. read_trace.
    split; [reflexivity|]. split.
    { intros [Hin|Hin]; [discriminate Hin|].
      apply in_app_or in Hin. destruct Hin as [Hin|[Hin|[]]];
        [contradiction|discriminate Hin]. }
    split; [reflexivity|]. split; [eauto|].
    intros _ _. split; [left; reflexivity|reflexivity].
Qed.

Lemma address_error_stops_cycle_witness :
  sends (snd (@updatehostname asciiV4 (route53Only [] None)
                (main_u53 "" "" "home.example.com" "" true true false)))
  = [Some "error getting public ip: EC2MetadataRequestError"].
Proof.
  apply (@address_error_stops_cycle asciiV4 (route53Only [] None)
           (main_u53 "" "" "home.example.com" "" true true false)
           "error getting public ip: EC2MetadataRequestError").
  - reflexivity.
  - discriminate.
  - left. reflexivity.
Defined.

(** C2, as the code has it. A cycle leaves [forceip], [getip],
    [hostedzone], [daemon], [verbose] and [debug] as they were; besides
    [previousip] it may change [hostname], and only by appending the dot
    that a non-empty hostname lacks. *)
Theorem cycle_frame `{GoLib} (w : World) (u53 : update53) :
  let u' := fst (updatehostname w u53) in
  forceip u' = forceip u53 /\ getip u' = getip u53 /\
  hostedzone u' = hostedzone u53 /\ daemon u' = daemon u53 /\
  verbose u' = verbose u53 /\ debug u' = debug u53 /\
  hostname u' =
  (if hostname u53 =? "" then "" else normalized (hostname u53)) /\
  (hostname u' = hostname u53 \/ hostname u' = hostname u53 ++ ".").
Proof.
  cbv zeta.
  assert (Hn : normalized (hostname u53) = hostname u53 \/
               normalized (hostname u53) = hostname u53 ++ ".").
  { unfold normalized. destruct (HasSuffix (hostname u53) "."); auto. }
  destruct (updatehostname_Cycle w u53) as [Hh| | | | | ]; cbn;
    try (rewrite eqb_empty_false by assumption); repeat split; auto.
  rewrite Hh; reflexivity.
Qed.

(** C2 fails as stated: a cycle run on the hostname home.example.com
    leaves home.example.com. in the field [hostname]. *)
Lemma cycle_rewrites_hostname :
  hostname homeConfig = "home.example.com" /\
  hostname (fst (@updatehostname asciiV4
                   (route53Only [mkHostedZone "example.com." "Z123"] None)
                   homeConfig))
  = "home.example.com." /\
  (hostname (fst (@updatehostname asciiV4
                    (route53Only [mkHostedZone "example.com." "Z123"] None)
                    homeConfig))
   =? hostname homeConfig) = false.
Proof. repeat split. Qed.

(** C3, as the code has it. A cycle sends at most one value on the error
    channel.  It sends none when the resolved address is the cached one
    (and then submits no change); otherwise it sends exactly one: an error
    when it stops before the change, the answer of the provider (nil on
    success) when it has submitted the change. *)
Theorem cycle_outcome `{GoLib} (w : World) (u53 : update53) :
  let t := snd (updatehostname w u53) in
  (unchanged w u53 = true -> sends t = [] /\ mutations t = []) /\
  (unchanged w u53 = false ->
   exists v, sends t = [v] /\
     ((mutations t = [] /\ exists err, v = Some err) \/
      (exists params, mutations t = [params] /\
                      v = ChangeResourceRecordSets w params))).
Proof.
  cbv zeta. unfold unchanged.
  destruct (updatehostname_Cycle w u53)
    as [Hh|Hh Hf Hv|r t1 err Hh Hpre Hr He|r t1 Hh Hpre Hr He Hp
        |r t1 z t2 err Hh Hpre Hr He Hp Hz Hfe
        |r t1 z t2 Hh Hpre Hr He Hp Hz Hfe];
    resolver_facts; cbn [snd]; read_trace.
  - rewrite Hh. cbn. split; [discriminate|]. intros _.
    eexists; split; [reflexivity|]. left; split; [reflexivity|eauto].
  - rewrite Hv, (eqb_empty_false _ Hf), Bool.andb_false_r. cbn.
    split; [discriminate|]. intros _.
    eexists; split; [reflexivity|]. left; split; [reflexivity|eauto].
  - rewrite Hr. cbn [fst]. rewrite He, Bool.andb_false_r.
    split; [discriminate|]. intros _.
    eexists; split; [reflexivity|]. left; split; [reflexivity|eauto].
  - split; [intros _; split; reflexivity|].
    rewrite Hr. cbn [fst]. rewrite He, (eqb_empty_false _ Hh).
    apply String.eqb_eq in Hp. rewrite Hp.
    destruct Hpre as [Hpre|Hpre]; rewrite Hpre; cbn;
      rewrite ?Bool.orb_true_r; discriminate.
  - rewrite Hr. cbn [fst]. rewrite He.
    apply String.eqb_neq in Hp. rewrite Hp, Bool.andb_false_r.
    split; [discriminate|]. intros _.
    eexists; split; [reflexivity|]. left; split; [reflexivity|eauto].
  - rewrite Hr. cbn [fst]. rewrite He.
    apply String.eqb_neq in Hp. rewrite Hp, Bool.andb_false_r.
    split; [discriminate|]. intros _.
    eexists; split; [reflexivity|]. right. eexists; split; reflexivity.
Qed.

Lemma cycle_outcome_witness :
  sends (snd (@updatehostname asciiV4 (route53Only [] None)
                (mkUpdate53 "203.0.113.5" "203.0.113.5" ""
                            "home.example.com." "" true false false)))
  = [].
Proof.
  apply (proj1 (@cycle_outcome asciiV4 (route53Only [] None)
                  (mkUpdate53 "203.0.113.5" "203.0.113.5" ""
                              "home.example.com." "" true false false))).
  reflexivity.
Defined.

(** C3 fails as stated: in daemon mode, a cycle that finds the cached
    address reports nothing at all on the error channel. *)
Lemma unchanged_cycle_reports_nothing :
  sends (snd (@updatehostname asciiV4 (route53Only [] None)
                (mkUpdate53 "203.0.113.5" "203.0.113.5" ""
                            "home.example.com." "" true false false)))
  = [] /\
  List.length
    (sends (snd (@updatehostname asciiV4 (route53Only [] None)
                   (mkUpdate53 "203.0.113.5" "203.0.113.5" ""
                               "home.example.com." "" true false false))))
  = 0.
Proof. split; reflexivity. Qed.

(** C1, on the code. The provider refuses the change (here with a
    throttling error), the error is sent on the error channel, and the
    address is cached all the same: the next cycle, with the same
    address, finds it unchanged and submits nothing. *)
Theorem failed_change_is_cached :
  let w := route53Only [mkHostedZone "example.com." "Z123"]
                       (Some "Throttling: Rate exceeded") in
  let c1 := @updatehostname asciiV4 w homeConfig in
  let c2 := @updatehostname asciiV4 w (fst c1) in
  previousip homeConfig = "" /\
  sends (snd c1) = [Some "Throttling: Rate exceeded"] /\
  List.length (mutations (snd c1)) = 1 /\
  previousip (fst c1) = "203.0.113.5" /\
  @unchanged asciiV4 w (fst c1) = true /\
  mutations (snd c2) = [] /\
  sends (snd c2) = [].
Proof. cbv zeta. repeat split. Qed.

(** A cycle that resolves an address other than the cached one, and the
    zone with it, submits one change and caches the address. *)
Lemma changed_cycle `{GoLib} (w : World) (u53 : update53) (a : string) :
  hostname u53 <> "" ->
  fst (GetPublicIP w (forceip u53) (getip u53)) = mkPublicIP a None ->
  previousip u53 <> a ->
  fe (fst (getHostedZoneID w (normalized (hostname u53)) (hostedzone u53)))
  = None ->
  let params :=
    changeParams
      (normalized (hostname u53)) a
      (s (fst (getHostedZoneID w (normalized (hostname u53))
                               (hostedzone u53)))) in
  fst (updatehostname w u53) =
  set_previousip (set_hostname u53 (normalized (hostname u53))) a /\
  mutations (snd (updatehostname w u53)) = [params] /\
  sends (snd (updatehostname w u53)) = [ChangeResourceRecordSets w params].
Proof.
  intros Hh Ha Hp Hzone params. subst params.
  destruct (updatehostname_Cycle w u53)
    as [Hh'|_ Hf Hv|r t1 err _ _ Hr He|r t1 _ _ Hr He Hp'
        |r t1 z t2 err _ _ Hr He _ Hz Hfe
        |r t1 z t2 _ _ Hr He _ Hz Hfe];
    try contradiction;
    try (rewrite Hr in Ha; cbn [fst] in Ha; subst r; cbn [e ip] in *).
  - exfalso. revert Ha. unfold GetPublicIP.
    rewrite (candidate_override w _ _ Hf), Hv. discriminate.
  - discriminate.
  - contradiction.
  - rewrite Hz in Hzone. cbn [fst] in Hzone. congruence.
  - rewrite Hz. cbn [fst snd]. resolver_facts. read_trace.
    repeat split.
Qed.

(** A cycle that resolves the cached address submits nothing and leaves
    the cache alone. *)
Lemma unchanged_cycle `{GoLib} (w : World) (u53 : update53) (a : string) :
  hostname u53 <> "" ->
  fst (GetPublicIP w (forceip u53) (getip u53)) = mkPublicIP a None ->
  previousip u53 = a ->
  unchanged w u53 = true /\
  previousip (fst (updatehostname w u53)) = a /\
  mutations (snd (updatehostname w u53)) = [] /\
  zoneLookups (snd (updatehostname w u53)) = [] /\
  sends (snd (updatehostname w u53)) = [].
Proof.
  intros Hh Ha Hp.
  assert (Hpre : forceip u53 = "" \/ ParseIP (forceip u53) = true).
  { destruct (forceip u53 =? "") eqn:Hf.
    - left. apply String.eqb_eq. exact Hf.
    - right. apply String.eqb_neq in Hf. revert Ha. unfold GetPublicIP.
      rewrite (candidate_override w _ _ Hf).
      destruct (ParseIP (forceip u53)); [reflexivity|discriminate]. }
  split.
  { unfold unchanged. rewrite Ha. cbn [e ip].
    rewrite (eqb_empty_false _ Hh), Hp, String.eqb_refl.
    destruct Hpre as [Hf|Hv]; rewrite ?Hf, ?Hv; cbn;
      rewrite ?Bool.orb_true_r; reflexivity. }
  destruct (updatehostname_Cycle w u53)
    as [Hh'|_ Hf Hv|r t1 err _ _ Hr He|r t1 _ _ Hr He Hp'
        |r t1 z t2 err _ _ Hr He Hp' Hz Hfe
        |r t1 z t2 _ _ Hr He Hp' Hz Hfe];
    try contradiction;
    try (rewrite Hr in Ha; cbn [fst] in Ha; subst r; cbn [e ip] in *);
    try congruence.
  - destruct Hpre; congruence.
  - resolver_facts. cbn [fst snd]. read_trace. repeat split. exact Hp.
Qed.

(** C7. Of two consecutive cycles that resolve the same address, the
    first of which starts from a cache holding anything else and resolves
    its zone, the first submits exactly one change and the second none:
    the second finds the address unchanged, sends nothing and launches no
    zone lookup.  [main] starts with an empty [previousip]; as no address
    that parses is empty, a cycle started on an empty cache never stops
    at the test of line 133: it sends exactly one value on the error
    channel, and when its address resolves it launches the zone lookup.
    So the first two cycles of a run that resolve the same address, and
    the zone, submit one change and none. *)
Theorem same_address_one_change `{GoLib} :
  (forall fi gi host hz d v dbg,
      previousip (main_u53 fi gi host hz d v dbg) = "") /\
  (forall w1 w2 u53 a,
      previousip u53 <> a ->
      hostname u53 <> "" ->
      fst (GetPublicIP w1 (forceip u53) (getip u53)) = mkPublicIP a None ->
      fst (GetPublicIP w2 (forceip u53) (getip u53)) = mkPublicIP a None ->
      fe (fst (getHostedZoneID w1 (normalized (hostname u53))
                               (hostedzone u53))) = None ->
      let c1 := updatehostname w1 u53 in
      let c2 := updatehostname w2 (fst c1) in
      List.length (mutations (snd c1)) = 1 /\
      List.length (mutations (snd c2)) = 0 /\
      zoneLookups (snd c2) = [] /\
      sends (snd c2) = [] /\
      unchanged w1 u53 = false /\
      unchanged w2 (fst c1) = true) /\
  (ParseIP "" = false ->
   forall w u53,
     previousip u53 = "" ->
     (exists v, sends (snd (updatehostname w u53)) = [v]) /\
     unchanged w u53 = false /\
     (hostname u53 <> "" ->
      e (fst (GetPublicIP w (forceip u53) (getip u53))) = None ->
      zoneLookups (snd (updatehostname w u53)) =
      [(normalized (hostname u53), hostedzone u53)])) /\
  (ParseIP "" = false ->
   forall w1 w2 fi gi host hz d v dbg a,
     host <> "" ->
     fst (GetPublicIP w1 fi gi) = mkPublicIP a None ->
     fst (GetPublicIP w2 fi gi) = mkPublicIP a None ->
     fe (fst (getHostedZoneID w1 (normalized host) hz)) = None ->
     let c1 := updatehostname w1 (main_u53 fi gi host hz d v dbg) in
     let c2 := updatehostname w2 (fst c1) in
     List.length (mutations (snd c1)) = 1 /\
     List.length (mutations (snd c2)) = 0).
Proof.
  assert (Hpair :
    forall w1 w2 u53 a,
      previousip u53 <> a ->
      hostname u53 <> "" ->
      fst (GetPublicIP w1 (forceip u53) (getip u53)) = mkPublicIP a None ->
      fst (GetPublicIP w2 (forceip u53) (getip u53)) = mkPublicIP a None ->
      fe (fst (getHostedZoneID w1 (normalized (hostname u53))
                               (hostedzone u53))) = None ->
      List.length (mutations (snd (updatehostname w1 u53))) = 1 /\
      List.length
        (mutations (snd (updatehostname w2 (fst (updatehostname w1 u53)))))
      = 0 /\
      zoneLookups (snd (updatehostname w2 (fst (updatehostname w1 u53))))
      = [] /\
      sends (snd (updatehostname w2 (fst (updatehostname w1 u53)))) = [] /\
      unchanged w1 u53 = false /\
      unchanged w2 (fst (updatehostname w1 u53)) = true).
  { intros w1 w2 u53 a Hne Hh Ha1 Ha2 Hzone.
    destruct (changed_cycle w1 u53 a Hh Ha1 Hne Hzone) as (Hu & Hm & _).
    rewrite Hm, Hu. split; [reflexivity|].
    assert (Hh2 : hostname (set_previousip
                              (set_hostname u53 (normalized (hostname u53)))
                              a) <> "").
    { cbn. unfold normalized.
      destruct (HasSuffix (hostname u53) "."); [exact Hh|].
      destruct (hostname u53); discriminate. }
    destruct (unchanged_cycle
                w2 (set_previousip
                      (set_hostname u53 (normalized (hostname u53))) a)
                a Hh2 Ha2 eq_refl)
      as (Hun & _ & Hm2 & Hl2 & Hs2).
    rewrite Hm2. split; [reflexivity|]. split; [exact Hl2|].
    split; [exact Hs2|]. split; [|exact Hun].
    unfold unchanged. rewrite Ha1. cbn [e ip].
    apply String.eqb_neq in Hne. rewrite Hne. apply Bool.andb_false_r. }
  assert (Hfirst :
    ParseIP "" = false ->
    forall w u53 r,
      previousip u53 = "" ->
      fst (GetPublicIP w (forceip u53) (getip u53)) = r ->
      e r = None -> previousip u53 <> ip r).
  { intros Hempty w u53 r Hp Hr He Heq.
    pose proof (GetPublicIP_valid w (forceip u53) (getip u53)) as Hv.
    rewrite Hr in Hv. specialize (Hv He).
    rewrite <- Heq, Hp in Hv. congruence. }
  split; [reflexivity|]. split; [exact Hpair|]. split.
  - intros Hempty w u53 Hp. split; [|split].
    + destruct (updatehostname_Cycle w u53)
        as [Hh|Hh Hf Hv|r t1 err Hh Hpre Hr He|r t1 Hh Hpre Hr He Hp'
            |r t1 z t2 err Hh Hpre Hr He Hp' Hz Hfe
            |r t1 z t2 Hh Hpre Hr He Hp' Hz Hfe];
        resolver_facts; cbn [snd]; read_trace; eauto.
      exfalso. apply (Hfirst Hempty w u53 r Hp); [rewrite Hr|..]; auto.
    + unfold unchanged.
      destruct (e (fst (GetPublicIP w (forceip u53) (getip u53)))) eqn:He;
        [apply Bool.andb_false_r|].
      pose proof (Hfirst Hempty w u53 _ Hp eq_refl He) as Hne.
      apply String.eqb_neq in Hne. rewrite Hne. apply Bool.andb_false_r.
    + intros Hh He.
      destruct (updatehostname_Cycle w u53)
        as [Hh'|_ Hf Hv|r t1 err _ Hpre Hr He'|r t1 _ Hpre Hr He' Hp'
            |r t1 z t2 err _ Hpre Hr He' Hp' Hz Hfe
            |r t1 z t2 _ Hpre Hr He' Hp' Hz Hfe];
        try contradiction;
        try (rewrite Hr in He; cbn [fst] in He);
        resolver_facts; cbn [snd]; read_trace; try reflexivity.
      * exfalso. revert He. unfold GetPublicIP.
        rewrite (candidate_override w _ _ Hf), Hv. discriminate.
      * congruence.
      * exfalso. apply (Hfirst Hempty w u53 r Hp); [rewrite Hr|..]; auto.
  - intros Hempty w1 w2 fi gi host hz d v dbg a Hh Ha1 Ha2 Hzone c1 c2.
    subst c1 c2.
    assert (Hne : previousip (main_u53 fi gi host hz d v dbg) <> a).
    { intro Heq. subst a.
      apply (Hfirst Hempty w1 (main_u53 fi gi host hz d v dbg)
                    (mkPublicIP "" None) eq_refl Ha1 eq_refl).
      reflexivity. }
    destruct (Hpair w1 w2 (main_u53 fi gi host hz d v dbg) a Hne Hh
                    Ha1 Ha2 Hzone) as (H1 & H2 & _).
    split; [exact H1|exact H2].
Qed.

Lemma same_address_one_change_witness :
  List.length
    (mutations
       (snd (@updatehostname asciiV4
               (route53Only [mkHostedZone "example.com." "Z123"] None)
               (mkUpdate53 "198.51.100.7" "203.0.113.5" ""
                           "home.example.com." "" true false false))))
  = 1 /\
  List.length
    (mutations
       (snd (@updatehostname asciiV4
               (route53Only [mkHostedZone "example.com." "Z123"] None)
               (fst (@updatehostname asciiV4
                       (route53Only [mkHostedZone "example.com." "Z123"]
                                    None)
                       (mkUpdate53 "198.51.100.7" "203.0.113.5" ""
                                   "home.example.com." "" true false
                                   false))))))
  = 0 /\
  List.length
    (mutations
       (snd (@updatehostname asciiV4
               (route53Only [mkHostedZone "example.com." "Z123"] None)
               homeConfig))) = 1 /\
  List.length
    (mutations
       (snd (@updatehostname asciiV4
               (route53Only [mkHostedZone "example.com." "Z123"] None)
               (fst (@updatehostname asciiV4
                       (route53Only [mkHostedZone "example.com." "Z123"]
                                    None)
                       homeConfig))))) = 0.
Proof.
  pose proof (proj1 (proj2 (@same_address_one_change asciiV4))
                (route53Only [mkHostedZone "example.com." "Z123"] None)
                (route53Only [mkHostedZone "example.com." "Z123"] None)
                (mkUpdate53 "198.51.100.7" "203.0.113.5" ""
                            "home.example.com." "" true false false)
                "203.0.113.5") as Hmoved.
  pose proof (proj2 (proj2 (proj2 (@same_address_one_change asciiV4)))
                eq_refl
                (route53Only [mkHostedZone "example.com." "Z123"] None)
                (route53Only [mkHostedZone "example.com." "Z123"] None)
                "203.0.113.5" "" "home.example.com" "" false false false
                "203.0.113.5") as Hinit.
  cbv zeta in Hmoved, Hinit.
  destruct Hmoved as (H1 & H2 & _);
    [discriminate|discriminate|reflexivity|reflexivity|reflexivity|].
  destruct Hinit as (H3 & H4);
    [discriminate|reflexivity|reflexivity|reflexivity|].
  split; [exact H1|]. split; [exact H2|]. split; [exact H3|exact H4].
Defined.

(** C9. Override 203.0.113.5, hostname home.example.com, an empty cache
    and a listing in which example.com. (Z123) is the first zone that
    matches: the cycle submits exactly one change, an UPSERT in zone Z123
    of the A record home.example.com. with value 203.0.113.5 and TTL 300,
    and when the provider accepts it the cache holds 203.0.113.5. *)
Theorem home_scenario `{GoLib} (w : World) (pre post : list HostedZone)
        (gi : string) (d v dbg : bool) :
  ParseIP "203.0.113.5" = true ->
  ListHostedZones w =
  ((pre ++ mkHostedZone "example.com." "Z123" :: post)%list, None) ->
  Forall (fun hz => HasSuffix "home.example.com." (Name hz) = false) pre ->
  let u53 := main_u53 "203.0.113.5" gi "home.example.com" "" d v dbg in
  let params :=
    {| inChangeBatch :=
         {| Changes :=
              [ {| Action := "UPSERT";
                   chResourceRecordSet :=
                     {| rrsName := "home.example.com.";
                        rrsType := "A";
                        ResourceRecords := [ {| Value := "203.0.113.5" |} ];
                        TTL := 300 |} |} ];
            Comment := "Update53" |};
       HostedZoneId := "Z123" |} in
  previousip u53 = "" /\
  mutations (snd (updatehostname w u53)) = [params] /\
  hostname (fst (updatehostname w u53)) = "home.example.com." /\
  (ChangeResourceRecordSets w params = None ->
   sends (snd (updatehostname w u53)) = [None] /\
   previousip (fst (updatehostname w u53)) = "203.0.113.5").
Proof.
  intros Hv Hlist Hpre u53 params.
  assert (Ha : fst (GetPublicIP w (forceip u53) (getip u53))
               = mkPublicIP "203.0.113.5" None).
  { apply override_address; [discriminate|exact Hv]. }
  assert (Hz : getHostedZoneID w (normalized (hostname u53)) (hostedzone u53)
               = (mkFutureAns None "Z123", [EvListHostedZones])).
  { unfold getHostedZoneID. cbn. rewrite Hlist.
    rewrite (findHostedZone_first "home.example.com." pre post
               (mkHostedZone "example.com." "Z123") Hpre eq_refl).
    reflexivity. }
  destruct (changed_cycle w u53 "203.0.113.5") as (Hu & Hm & Hs).
  - discriminate.
  - exact Ha.
  - discriminate.
  - rewrite Hz. reflexivity.
  - rewrite Hz in Hm, Hs. cbn [fst s] in Hm, Hs.
    split; [reflexivity|]. split; [exact Hm|].
    split; [rewrite Hu; reflexivity|].
    intro Hok. split.
    + rewrite Hs. f_equal. exact Hok.
    + rewrite Hu. reflexivity.
Qed.

Lemma home_scenario_witness :
  mutations
    (snd (@updatehostname asciiV4
            (route53Only [mkHostedZone "example.com." "Z123"] None)
            homeConfig))
  = [changeParams "home.example.com." "203.0.113.5" "Z123"] /\
  previousip
    (fst (@updatehostname asciiV4
            (route53Only [mkHostedZone "example.com." "Z123"] None)
            homeConfig))
  = "203.0.113.5".
Proof.
  pose proof (@home_scenario asciiV4
                (route53Only [mkHostedZone "example.com." "Z123"] None)
                [] [] "" false false false eq_refl eq_refl
                (Forall_nil _)) as Hthm.
  cbv zeta in Hthm. destruct Hthm as (_ & Hm & _ & Hok).
  split; [exact Hm|]. exact (proj2 (Hok eq_refl)).
Defined.

(** ** The program run on examples *)

(** A zone id given on the command line is used without a listing. *)
Example explicit_zone_skips_listing :
  getHostedZoneID (route53Only [] None) "home.example.com." "Z9"
  = (mkFutureAns None "Z9", []).
Proof. reflexivity. Qed.

(** No listed zone ends the hostname. *)
Example no_zone_for_hostname :
  getHostedZoneID (route53Only [mkHostedZone "example.org." "Z0"] None)
                  "home.example.com." ""
  = (mkFutureAns (Some "unable to find hosted domain details") "",
     [EvListHostedZones]).
Proof. reflexivity. Qed.

(** The trace of the end-to-end scenario, verbose. *)
Example home_scenario_trace :
  snd (@updatehostname asciiV4
         (route53Only [mkHostedZone "example.com." "Z123"] None)
         (main_u53 "203.0.113.5" "" "home.example.com" "" false true false))
  = [EvGetPublicIP "203.0.113.5" "";
     EvGetHostedZoneID "home.example.com." "";
     EvListHostedZones;
     EvChangeResourceRecordSets
       (changeParams "home.example.com." "203.0.113.5" "Z123");
     EvErrChan None;
     EvLog "info - updated ip cache. new: 203.0.113.5 old: "].
Proof. reflexivity. Qed.

(** The body served at the URL is trimmed before it is parsed. *)
Example url_body_is_trimmed :
  @GetPublicIP asciiV4 (servedWorld " 198.51.100.7 " "" [] None)
    "" "http://ip.example.net/"
  = (mkPublicIP "198.51.100.7" None, [EvHttpGet "http://ip.example.net/"]).
Proof. reflexivity. Qed.

(** * Further properties of the code *)

(** ** Suffixes *)

Lemma length_append (s1 s2 : string) :
  String.length (s1 ++ s2) = String.length s1 + String.length s2.
Proof. induction s1 as [|c s1 IH]; simpl; [reflexivity|]. rewrite IH. reflexivity. Qed.

Lemma substring_all (str : string) :
  substring 0 (String.length str) str = str.
Proof. induction str as [|c str IH]; simpl; [reflexivity|]. rewrite IH. reflexivity. Qed.

Lemma substring_skip (p str : string) (n : nat) :
  substring (String.length p) n (p ++ str) = substring 0 n str.
Proof.
  induction p as [|c p IH]; simpl; [reflexivity|]. exact IH.
Qed.

Lemma split_at (str : string) :
  forall n, n <= String.length str ->
  str = substring 0 n str ++ substring n (String.length str - n) str.
Proof.
  induction str as [|c str IH]; intros n Hn.
  - destruct n; reflexivity.
  - destruct n as [|n].
    + cbn [substring append]. rewrite Nat.sub_0_r.
      symmetry. apply (substring_all (String c str)).
    + cbn [substring append String.length Nat.sub]. f_equal.
      apply IH. simpl in Hn. lia.
Qed.

Lemma HasSuffix_app (p suffix : string) : HasSuffix (p ++ suffix) suffix = true.
Proof.
  unfold HasSuffix. rewrite length_append.
  replace (String.length p + String.length suffix - String.length suffix)
    with (String.length p) by lia.
  rewrite substring_skip, substring_all, String.eqb_refl.
  rewrite Bool.andb_true_r. apply Nat.leb_le. lia.
Qed.

Lemma HasSuffix_inv (str suffix : string) :
  HasSuffix str suffix = true -> exists p, str = p ++ suffix.
Proof.
  unfold HasSuffix. intro Hs. apply Bool.andb_true_iff in Hs.
  destruct Hs as [Hlen Heq]. apply Nat.leb_le in Hlen.
  apply String.eqb_eq in Heq.
  exists (substring 0 (String.length str - String.length suffix) str).
  rewrite (split_at str (String.length str - String.length suffix)) at 1
    by lia.
  f_equal.
  replace (String.length str - (String.length str - String.length suffix))
    with (String.length suffix) by lia.
  exact Heq.
Qed.

Lemma substring_none (str : string) :
  forall n, substring n 0 str = "".
Proof.
  induction str as [|c str IH]; intros [|n]; simpl; try reflexivity.
  apply IH.
Qed.

Lemma HasSuffix_empty (str : string) : HasSuffix str "" = true.
Proof.
  unfold HasSuffix. cbn [String.length Nat.leb andb].
  rewrite substring_none. reflexivity.
Qed.

Lemma normalized_dotted (host : string) :
  HasSuffix (normalized host) "." = true.
Proof.
  unfold normalized. destruct (HasSuffix host ".") eqn:Hs; [exact Hs|].
  apply HasSuffix_app.
Qed.

Lemma normalized_idem (host : string) :
  normalized (normalized host) = normalized host.
Proof.
  unfold normalized at 1. rewrite normalized_dotted. reflexivity.
Qed.

Lemma normalized_nonempty (host : string) :
  host <> "" -> normalized host <> "".
Proof.
  intro Hne. unfold normalized. destruct (HasSuffix host "."); [exact Hne|].
  destruct host; discriminate.
Qed.

(** ** The zone resolver, completed *)

Lemma findHostedZone_some (host : string) (zones : list HostedZone)
      (id : string) :
  findHostedZone host zones = Some id ->
  exists pre hz post,
    zones = (pre ++ hz :: post)%list /\
    Forall (fun hz' => HasSuffix host (Name hz') = false) pre /\
    HasSuffix host (Name hz) = true /\ id = Id hz.
Proof.
  induction zones as [|hz zones IH]; simpl; [discriminate|].
  destruct (HasSuffix host (Name hz)) eqn:Hs.
  - intro Hid. exists [], hz, zones. repeat split; [constructor|exact Hs|].
    congruence.
  - intro Hid. destruct (IH Hid) as (pre & hz' & post & Hz & Hpre & Hm & Hi).
    exists (hz :: pre), hz', post. subst zones. repeat split; auto.
Qed.

(** X1. A zone id given by the caller is the answer, for every hostname
    and whatever the provider would list: no error, no listing call. *)
Theorem explicit_zone_id_verbatim (w : World) (host hz : string) :
  hz <> "" ->
  getHostedZoneID w host hz = (mkFutureAns None hz, []).
Proof.
  intro Hne. unfold getHostedZoneID. rewrite (eqb_empty_false _ Hne).
  reflexivity.
Qed.

Lemma explicit_zone_id_verbatim_witness :
  getHostedZoneID (route53Only [mkHostedZone "example.com." "Z1"] None)
                  "home.example.org." "Z9"
  = (mkFutureAns None "Z9", []).
Proof.
  apply (explicit_zone_id_verbatim
           (route53Only [mkHostedZone "example.com." "Z1"] None)
           "home.example.org." "Z9").
  discriminate.
Defined.

(** X2. On a listing that succeeds, the zone resolver answers the error
    "unable to find hosted domain details" exactly when no listed zone has
    a name that is a suffix of the hostname (so too on an empty listing). *)
Theorem zone_not_found_iff (w : World) (host : string)
        (zones : list HostedZone) :
  ListHostedZones w = (zones, None) ->
  fe (fst (getHostedZoneID w host "")) =
  Some "unable to find hosted domain details"
  <-> Forall (fun hz => HasSuffix host (Name hz) = false) zones.
Proof.
  intro Hlist. unfold getHostedZoneID. cbn [String.eqb negb]. rewrite Hlist.
  rewrite <- findHostedZone_none. unfold errors_New.
  destruct (findHostedZone host zones); cbn; split; congruence.
Qed.

Lemma zone_not_found_iff_witness :
  fe (fst (getHostedZoneID
             (route53Only [mkHostedZone "example.org." "Z0";
                           mkHostedZone "example.net." "Z5"] None)
             "home.example.com." ""))
  = Some "unable to find hosted domain details".
Proof.
  apply (zone_not_found_iff
           (route53Only [mkHostedZone "example.org." "Z0";
                         mkHostedZone "example.net." "Z5"] None)
           "home.example.com."
           [mkHostedZone "example.org." "Z0";
            mkHostedZone "example.net." "Z5"] eq_refl).
  repeat constructor.
Defined.

(** X3. An id that the zone resolver finds in a listing is the id of a
    listed zone whose name ends the hostname, and no zone listed before
    that one has such a name. *)
Theorem zone_found_is_listed (w : World) (host : string)
        (zones : list HostedZone) :
  ListHostedZones w = (zones, None) ->
  fe (fst (getHostedZoneID w host "")) = None ->
  exists pre hz post p,
    zones = (pre ++ hz :: post)%list /\
    Forall (fun hz' => HasSuffix host (Name hz') = false) pre /\
    host = p ++ Name hz /\
    s (fst (getHostedZoneID w host "")) = Id hz.
Proof.
  intros Hlist. unfold getHostedZoneID. cbn [String.eqb negb]. rewrite Hlist.
  destruct (findHostedZone host zones) as [id|] eqn:Hfind; cbn;
    [intros _|discriminate].
  destruct (findHostedZone_some host zones id Hfind)
    as (pre & hz & post & Hz & Hpre & Hm & Hi).
  destruct (HasSuffix_inv _ _ Hm) as [p Hp].
  exists pre, hz, post, p. repeat split; assumption.
Qed.

Lemma zone_found_is_listed_witness :
  exists pre hz post p,
    [mkHostedZone "example.org." "Z0"; mkHostedZone "example.com." "Z1"]
    = (pre ++ hz :: post)%list /\
    Forall (fun hz' => HasSuffix "home.example.com." (Name hz') = false) pre
    /\ "home.example.com." = p ++ Name hz /\
    s (fst (getHostedZoneID
              (route53Only [mkHostedZone "example.org." "Z0";
                            mkHostedZone "example.com." "Z1"] None)
              "home.example.com." "")) = Id hz.
Proof.
  apply (zone_found_is_listed
           (route53Only [mkHostedZone "example.org." "Z0";
                         mkHostedZone "example.com." "Z1"] None)
           "home.example.com."
           [mkHostedZone "example.org." "Z0";
            mkHostedZone "example.com." "Z1"]);
    reflexivity.
Defined.

(** X4. The match is on the characters, not on the labels: the zone
    listed first is chosen for every hostname made of any text followed
    by the zone's name, with or without a dot between the two (and a zone
    with an empty name is chosen for every hostname). *)
Theorem zone_match_ignores_labels (w : World) (p : string)
        (z : HostedZone) (rest : list HostedZone) :
  ListHostedZones w = (z :: rest, None) ->
  getHostedZoneID w (p ++ Name z) ""
  = (mkFutureAns None (Id z), [EvListHostedZones]).
Proof.
  intro Hlist. unfold getHostedZoneID. cbn [String.eqb negb]. rewrite Hlist.
  cbn [findHostedZone]. rewrite HasSuffix_app. reflexivity.
Qed.

Lemma zone_match_ignores_labels_witness :
  getHostedZoneID
    (route53Only [mkHostedZone "example.com." "Z1";
                  mkHostedZone "notexample.com." "Z2"] None)
    "notexample.com." ""
  = (mkFutureAns None "Z1", [EvListHostedZones]).
Proof.
  apply (zone_match_ignores_labels
           (route53Only [mkHostedZone "example.com." "Z1";
                         mkHostedZone "notexample.com." "Z2"] None)
           "not" (mkHostedZone "example.com." "Z1")
           [mkHostedZone "notexample.com." "Z2"]).
  reflexivity.
Defined.

(** ** The address resolver, completed *)

(** X5. The address resolver asks at most one source, chosen before
    anything is fetched: none when an override is given; otherwise the
    URL, when one is given, with one GET (the metadata service is then not
    asked, even when the GET fails); otherwise the metadata service, with
    one query of public-ipv4. *)
Theorem one_address_source `{GoLib} (w : World) (ip0 geturl : string) :
  snd (GetPublicIP w ip0 geturl) =
  if negb (ip0 =? "") then []
  else if negb (geturl =? "") then [EvHttpGet geturl]
       else [EvGetMetadata "public-ipv4"].
Proof.
  rewrite GetPublicIP_trace. unfold candidate, getFromURL, getFromMetadata.
  destruct (ip0 =? ""); [|reflexivity].
  destruct (geturl =? ""); cbn [negb]; [reflexivity|].
  destruct (http_Get w geturl); reflexivity.
Qed.

(** X6. A source that fails gives an empty address and its error under
    the heading "error getting public ip: "; the error of a GET names the
    URL; and the text that comes with a metadata error is dropped, also
    when it would parse. *)
Theorem source_error_wrapped `{GoLib} (w : World) (geturl : string) :
  (forall err,
      geturl <> "" -> http_Get w geturl = GetFailed err ->
      fst (GetPublicIP w "" geturl) =
      mkPublicIP ""
        (Some ("error getting public ip: "
               ++ "unable to get public ip details from: " ++ geturl
               ++ " error: " ++ err))) /\
  (forall err,
      geturl <> "" -> http_Get w geturl = ReadFailed err ->
      fst (GetPublicIP w "" geturl) =
      mkPublicIP ""
        (Some ("error getting public ip: "
               ++ "unable to read public ip in response: " ++ err))) /\
  (forall text err,
      GetMetadata w "public-ipv4" = (text, Some err) ->
      fst (GetPublicIP w "" "") =
      mkPublicIP "" (Some ("error getting public ip: " ++ err))).
Proof.
  unfold GetPublicIP, candidate, getFromURL, getFromMetadata.
  cbn [String.eqb negb].
  split; [|split].
  - intros err Hu Hget. rewrite (eqb_empty_false _ Hu), Hget. reflexivity.
  - intros err Hu Hget. rewrite (eqb_empty_false _ Hu), Hget. reflexivity.
  - intros text err Hmd. rewrite Hmd. reflexivity.
Qed.

Lemma source_error_wrapped_witness :
  fst (@GetPublicIP asciiV4 (route53Only [] None) "" "http://ip.example.net/")
  = mkPublicIP ""
      (Some ("error getting public ip: "
             ++ "unable to get public ip details from: "
             ++ "http://ip.example.net/" ++ " error: "
             ++ "connection refused")) /\
  fst (@GetPublicIP asciiV4
         (mkWorld (fun _ => Body "198.51.100.7")
                  (fun _ => ("203.0.113.5", Some "RequestError"))
                  ([], None) (fun _ => None))
         "" "")
  = mkPublicIP "" (Some ("error getting public ip: " ++ "RequestError")).
Proof.
  split.
  - apply (proj1 (@source_error_wrapped asciiV4 (route53Only [] None)
                    "http://ip.example.net/") "connection refused").
    + discriminate.
    + reflexivity.
  - apply (proj2 (proj2 (@source_error_wrapped asciiV4
                           (mkWorld (fun _ => Body "198.51.100.7")
                                    (fun _ => ("203.0.113.5",
                                               Some "RequestError"))
                                    ([], None) (fun _ => None))
                           "")) "203.0.113.5" "RequestError").
    reflexivity.
Defined.

(** X7. An address that the resolver gives without error parses, and it
    is the text of the one source that the precedence selects: the
    override; else the body served at the URL, trimmed; else the text of
    the metadata service, as it is. *)
Theorem resolved_address_origin `{GoLib} (w : World)
        (ip0 geturl a : string) :
  fst (GetPublicIP w ip0 geturl) = mkPublicIP a None ->
  ParseIP a = true /\
  ((ip0 <> "" /\ a = ip0) \/
   (ip0 = "" /\ geturl <> "" /\
    exists body, http_Get w geturl = Body body /\ a = TrimSpace body) \/
   (ip0 = "" /\ geturl = "" /\ GetMetadata w "public-ipv4" = (a, None))).
Proof.
  intro Hres. split.
  { pose proof (GetPublicIP_valid w ip0 geturl) as Hv.
    rewrite Hres in Hv. apply Hv. reflexivity. }
  revert Hres. unfold GetPublicIP, candidate, getFromURL, getFromMetadata.
  destruct (ip0 =? "") eqn:Hi.
  - apply String.eqb_eq in Hi. subst ip0.
    destruct (geturl =? "") eqn:Hu; cbn [negb].
    + apply String.eqb_eq in Hu. subst geturl.
      destruct (GetMetadata w "public-ipv4") as [text [err|]] eqn:Hmd;
        [discriminate|].
      destruct (ParseIP text); cbn [negb]; [|discriminate].
      cbn [fst]. intro Hres. injection Hres as Hres. subst a.
      right; right. repeat split.
    + apply String.eqb_neq in Hu.
      destruct (http_Get w geturl) as [err|err|body] eqn:Hget;
        try discriminate.
      destruct (ParseIP (TrimSpace body)); cbn [negb]; [|discriminate].
      cbn [fst]. intro Hres. injection Hres as Hres. subst a.
      right; left. repeat split; [exact Hu|].
      exists body. split; reflexivity.
  - apply String.eqb_neq in Hi.
    destruct (ParseIP ip0); cbn [negb]; [|discriminate].
    cbn [fst]. intro Hres. injection Hres as Hres. subst a.
    left. split; [exact Hi|reflexivity].
Qed.

Lemma resolved_address_origin_witness :
  @ParseIP asciiV4 "198.51.100.7" = true /\
  (("" <> "" /\ "198.51.100.7" = "") \/
   ("" = "" /\ "http://ip.example.net/" <> "" /\
    exists body,
      http_Get (servedWorld " 198.51.100.7 " "192.0.2.9" [] None)
               "http://ip.example.net/" = Body body /\
      "198.51.100.7" = @TrimSpace asciiV4 body) \/
   ("" = "" /\ "http://ip.example.net/" = "" /\
    GetMetadata (servedWorld " 198.51.100.7 " "192.0.2.9" [] None)
                "public-ipv4" = ("198.51.100.7", None))).
Proof.
  apply (@resolved_address_origin asciiV4
           (servedWorld " 198.51.100.7 " "192.0.2.9" [] None)
           "" "http://ip.example.net/" "198.51.100.7").
  reflexivity.
Defined.

(** ** The update cycle, completed *)

(** The receiver after a cycle: the cache apart, it is the receiver
    before, with the hostname normalized unless it is empty. *)
Lemma cycle_receiver `{GoLib} (w : World) (u53 : update53) :
  exists p,
    fst (updatehostname w u53) =
    mkUpdate53 p (forceip u53) (getip u53)
               (if hostname u53 =? "" then "" else normalized (hostname u53))
               (hostedzone u53) (daemon u53) (verbose u53) (debug u53).
Proof.
  destruct (updatehostname_Cycle w u53) as [Hh| | | | | ];
    try (rewrite eqb_empty_false by assumption);
    cbn [fst set_hostname set_previousip previousip forceip getip hostname
         hostedzone daemon verbose debug];
    try (eexists; reflexivity).
  rewrite Hh. cbn. exists (previousip u53). destruct u53; cbn in *.
  subst. reflexivity.
Qed.

(** The cache and the change go together: either no change is submitted
    and the cache stays, or one change is submitted, for an address that
    was resolved, differs from the cache and becomes the cache. *)
Lemma cycle_cache `{GoLib} (w : World) (u53 : update53) :
  (mutations (snd (updatehostname w u53)) = [] /\
   previousip (fst (updatehostname w u53)) = previousip u53) \/
  (exists r t1 z t2,
      hostname u53 <> "" /\
      GetPublicIP w (forceip u53) (getip u53) = (r, t1) /\
      e r = None /\ previousip u53 <> ip r /\
      getHostedZoneID w (normalized (hostname u53)) (hostedzone u53)
      = (z, t2) /\
      fe z = None /\
      mutations (snd (updatehostname w u53)) =
      [changeParams (normalized (hostname u53)) (ip r) (s z)] /\
      previousip (fst (updatehostname w u53)) = ip r).
Proof.
  destruct (updatehostname_Cycle w u53)
    as [Hh|Hh Hf Hv|r t1 err Hh Hpre Hr He|r t1 Hh Hpre Hr He Hp
        |r t1 z t2 err Hh Hpre Hr He Hp Hz Hfe
        |r t1 z t2 Hh Hpre Hr He Hp Hz Hfe];
    resolver_facts; cbn [fst snd]; read_trace;
    try (left; split; reflexivity).
  right. exists r, t1, z, t2. repeat split; assumption.
Qed.

(** X8. The two checks made before anything is fetched, in their order:
    an empty hostname ends the cycle with "invalid hostname supplied" and
    an untouched receiver, whatever the other fields hold; a forced
    address that does not parse ends it with "invalid force ip supplied:
    <address>", after the hostname has been normalized.  In both cases
    the send of the error is all the cycle does. *)
Theorem rejected_before_any_call `{GoLib} (w : World) (u53 : update53) :
  (hostname u53 = "" ->
   updatehostname w u53 =
   (u53, [EvErrChan (Some "invalid hostname supplied")])) /\
  (hostname u53 <> "" -> forceip u53 <> "" ->
   ParseIP (forceip u53) = false ->
   updatehostname w u53 =
   (set_hostname u53 (normalized (hostname u53)),
    [EvErrChan (Some ("invalid force ip supplied: " ++ forceip u53))])).
Proof.
  split.
  - intro Hh. unfold updatehostname. rewrite Hh. reflexivity.
  - intros Hh Hf Hv. unfold updatehostname.
    rewrite (eqb_empty_false _ Hh), normalize_receiver.
    cbn [forceip set_hostname]. rewrite (eqb_empty_false _ Hf), Hv.
    reflexivity.
Qed.

Lemma rejected_before_any_call_witness :
  @updatehostname asciiV4 (servedWorld "198.51.100.7" "" [] None)
    (main_u53 "999.1.1.1" "" "" "" false false false)
  = (main_u53 "999.1.1.1" "" "" "" false false false,
     [EvErrChan (Some "invalid hostname supplied")]) /\
  @updatehostname asciiV4 (servedWorld "198.51.100.7" "" [] None)
    (main_u53 "999.1.1.1" "" "home.example.com" "" false false false)
  = (main_u53 "999.1.1.1" "" "home.example.com." "" false false false,
     [EvErrChan (Some "invalid force ip supplied: 999.1.1.1")]).
Proof.
  split.
  - apply (proj1 (@rejected_before_any_call asciiV4
                    (servedWorld "198.51.100.7" "" [] None)
                    (main_u53 "999.1.1.1" "" "" "" false false false))).
    reflexivity.
  - apply (proj2 (@rejected_before_any_call asciiV4
                    (servedWorld "198.51.100.7" "" [] None)
                    (main_u53 "999.1.1.1" "" "home.example.com" ""
                              false false false)));
      [discriminate|discriminate|reflexivity].
Defined.

(** X9. When the zone cannot be resolved, the cycle sends the zone
    resolver's error, submits no change and leaves the cache as it was;
    so the next cycle that resolves the same address, and its zone,
    submits the change. *)
Theorem zone_error_keeps_cache `{GoLib} (w : World) (u53 : update53)
        (a : string) (err : error) :
  hostname u53 <> "" ->
  fst (GetPublicIP w (forceip u53) (getip u53)) = mkPublicIP a None ->
  previousip u53 <> a ->
  fe (fst (getHostedZoneID w (normalized (hostname u53)) (hostedzone u53)))
  = Some err ->
  sends (snd (updatehostname w u53)) = [Some err] /\
  mutations (snd (updatehostname w u53)) = [] /\
  previousip (fst (updatehostname w u53)) = previousip u53 /\
  (forall w',
      fst (GetPublicIP w' (forceip u53) (getip u53)) = mkPublicIP a None ->
      fe (fst (getHostedZoneID w' (normalized (hostname u53))
                               (hostedzone u53))) = None ->
      List.length
        (mutations (snd (updatehostname w' (fst (updatehostname w u53)))))
      = 1).
Proof.
  intros Hh Ha Hp Hzone.
  destruct (updatehostname_Cycle w u53)
    as [Hh'|_ Hf Hv|r t1 err' _ _ Hr He|r t1 _ _ Hr He Hp'
        |r t1 z t2 err' _ _ Hr He _ Hz Hfe
        |r t1 z t2 _ _ Hr He _ Hz Hfe];
    try contradiction;
    try (rewrite Hr in Ha; cbn [fst] in Ha; subst r; cbn [e ip] in *).
  - exfalso. revert Ha. unfold GetPublicIP.
    rewrite (candidate_override w _ _ Hf), Hv. discriminate.
  - discriminate.
  - contradiction.
  - rewrite Hz in Hzone. cbn [fst] in Hzone.
    assert (err' = err) by congruence. subst err'.
    resolver_facts. cbn [fst snd]. read_trace.
    repeat split.
    intros w' Ha' Hz'.
    pose proof (changed_cycle w' (set_hostname u53 (normalized (hostname u53)))
                  a) as Hnext.
    cbn [hostname forceip getip previousip hostedzone set_hostname] in Hnext.
    rewrite normalized_idem in Hnext.
    destruct (Hnext (normalized_nonempty _ Hh) Ha' Hp Hz') as (_ & Hm & _).
    rewrite Hm. reflexivity.
  - rewrite Hz in Hzone. cbn [fst] in Hzone. congruence.
Qed.

Lemma zone_error_keeps_cache_witness :
  previousip
    (fst (@updatehostname asciiV4
            (route53Only [mkHostedZone "example.org." "Z0"] None)
            homeConfig)) = "" /\
  List.length
    (mutations
       (snd (@updatehostname asciiV4
               (route53Only [mkHostedZone "example.com." "Z123"] None)
               (fst (@updatehostname asciiV4
                       (route53Only [mkHostedZone "example.org." "Z0"] None)
                       homeConfig))))) = 1.
Proof.
  pose proof (@zone_error_keeps_cache asciiV4
                (route53Only [mkHostedZone "example.org." "Z0"] None)
                homeConfig "203.0.113.5"
                "unable to find hosted domain details") as Hthm.
  destruct Hthm as (_ & _ & Hkeep & Hretry);
    [discriminate|reflexivity|discriminate|reflexivity|].
  split; [exact Hkeep|].
  apply (Hretry (route53Only [mkHostedZone "example.com." "Z123"] None));
    reflexivity.
Defined.

(** X10. The cache is written only together with a change: a cycle
    either submits nothing and leaves the cache, or submits exactly one
    change, an UPSERT of the A record of the normalized hostname with TTL
    300 and comment Update53, whose value parses, differs from the cache
    before the cycle and is the cache after it (whatever the provider
    answers), in the zone given by the caller when one is given. *)
Theorem cache_written_with_change `{GoLib} (w : World) (u53 : update53) :
  (mutations (snd (updatehostname w u53)) = [] /\
   previousip (fst (updatehostname w u53)) = previousip u53) \/
  (exists a zone,
      mutations (snd (updatehostname w u53)) =
      [ {| inChangeBatch :=
             {| Changes :=
                  [ {| Action := "UPSERT";
                       chResourceRecordSet :=
                         {| rrsName := normalized (hostname u53);
                            rrsType := "A";
                            ResourceRecords := [ {| Value := a |} ];
                            TTL := 300 |} |} ];
                Comment := "Update53" |};
           HostedZoneId := zone |} ] /\
      ParseIP a = true /\
      String.eqb a (previousip u53) = false /\
      previousip (fst (updatehostname w u53)) = a /\
      HasSuffix (normalized (hostname u53)) "." = true /\
      (String.eqb (hostedzone u53) "" = false -> zone = hostedzone u53)).
Proof.
  destruct (cycle_cache w u53)
    as [Hnone|(r & t1 & z & t2 & Hh & Hr & He & Hp & Hz & Hfe & Hm & Hc)];
    [left; exact Hnone|right].
  exists (ip r), (s z). split; [exact Hm|].
  split.
  { pose proof (GetPublicIP_valid w (forceip u53) (getip u53)) as Hv.
    rewrite Hr in Hv. apply Hv. exact He. }
  split; [apply String.eqb_neq; congruence|].
  split; [exact Hc|]. split; [apply normalized_dotted|].
  intro Hhz. revert Hz. unfold getHostedZoneID. rewrite Hhz. cbn [negb].
  intro Hz. injection Hz as Hz _. subst z. reflexivity.
Qed.

(** ** Runs of cycles *)

Lemma cycles_cons `{GoLib} (w : World) (ws : list World) (u53 : update53) :
  cycles (w :: ws) u53 =
  (fst (cycles ws (fst (updatehostname w u53))),
   (snd (updatehostname w u53)
      ++ snd (cycles ws (fst (updatehostname w u53))))%list).
Proof.
  cbn [cycles]. destruct (updatehostname w u53) as [u t]. cbn [fst snd].
  destruct (cycles ws u) as [u' t']. reflexivity.
Qed.

(** X11. The cache holds nothing or an address that parses: a run of any
    number of cycles, on any networks, that starts from such a cache ends
    with such a cache. *)
Theorem cache_stays_valid `{GoLib} (ws : list World) (u53 : update53) :
  previousip u53 = "" \/ ParseIP (previousip u53) = true ->
  previousip (fst (cycles ws u53)) = "" \/
  ParseIP (previousip (fst (cycles ws u53))) = true.
Proof.
  revert u53. induction ws as [|w ws IH]; intros u53 Hok; [exact Hok|].
  rewrite cycles_cons. cbn [fst]. apply IH.
  destruct (cycle_cache w u53)
    as [[_ Hsame]|(r & t1 & z & t2 & _ & Hr & He & _ & _ & _ & _ & Hc)].
  - rewrite Hsame. exact Hok.
  - right. rewrite Hc.
    pose proof (GetPublicIP_valid w (forceip u53) (getip u53)) as Hv.
    rewrite Hr in Hv. apply Hv. exact He.
Qed.

Lemma cache_stays_valid_witness :
  previousip
    (fst (@cycles asciiV4
            [route53Only [mkHostedZone "example.org." "Z0"] None;
             route53Only [mkHostedZone "example.com." "Z123"]
                         (Some "Throttling: Rate exceeded");
             route53Only [] None]
            homeConfig)) = "" \/
  @ParseIP asciiV4
    (previousip
       (fst (@cycles asciiV4
               [route53Only [mkHostedZone "example.org." "Z0"] None;
                route53Only [mkHostedZone "example.com." "Z123"]
                            (Some "Throttling: Rate exceeded");
                route53Only [] None]
               homeConfig))) = true.
Proof.
  apply (@cache_stays_valid asciiV4
           [route53Only [mkHostedZone "example.org." "Z0"] None;
            route53Only [mkHostedZone "example.com." "Z123"]
                        (Some "Throttling: Rate exceeded");
            route53Only [] None]
           homeConfig).
  left. reflexivity.
Defined.

(** X12. However many cycles run, the hostname gets its dot once: after
    a run of one cycle or more the hostname is the normalized one (it
    ends with a dot) when it was not empty, and it is still empty when it
    was, every cycle of the run having sent "invalid hostname supplied"
    and nothing else. *)
Theorem hostname_normalized_once `{GoLib} (w : World) (ws : list World)
        (u53 : update53) :
  (hostname u53 <> "" ->
   hostname (fst (cycles (w :: ws) u53)) = normalized (hostname u53) /\
   HasSuffix (hostname (fst (cycles (w :: ws) u53))) "." = true) /\
  (hostname u53 = "" ->
   cycles (w :: ws) u53 =
   (u53, repeat (EvErrChan (Some "invalid hostname supplied"))
                (List.length (w :: ws)))).
Proof.
  split.
  - intro Hh.
    assert (Hgen : forall ws' u, hostname u = normalized (hostname u53) ->
                                 hostname (fst (cycles ws' u))
                                 = normalized (hostname u53)).
    { induction ws' as [|w' ws' IH]; intros u Hu; [exact Hu|].
      rewrite cycles_cons. cbn [fst]. apply IH.
      destruct (cycle_receiver w' u) as [p Hrec]. rewrite Hrec.
      cbn [hostname]. rewrite Hu.
      rewrite (eqb_empty_false _ (normalized_nonempty _ Hh)).
      apply normalized_idem. }
    assert (Hhost : hostname (fst (cycles (w :: ws) u53))
                    = normalized (hostname u53)).
    { rewrite cycles_cons. cbn [fst]. apply Hgen.
      destruct (cycle_receiver w u53) as [p Hrec]. rewrite Hrec.
      cbn [hostname]. rewrite (eqb_empty_false _ Hh). reflexivity. }
    split; [exact Hhost|]. rewrite Hhost. apply normalized_dotted.
  - intro Hh. generalize (w :: ws). intro ws'.
    induction ws' as [|w' ws' IH]; [reflexivity|].
    rewrite cycles_cons.
    assert (Hone : updatehostname w' u53 =
                   (u53, [EvErrChan (Some "invalid hostname supplied")])).
    { unfold updatehostname. rewrite Hh. reflexivity. }
    rewrite Hone. cbn [fst snd]. rewrite IH. reflexivity.
Qed.

(** X13. While the address does not move, one change is enough for the
    whole run: if every cycle of a run that resolves an address resolves
    the same one, the run submits at most one change, and none at all
    when that address is already the cache. *)
Theorem steady_address_one_change `{GoLib} (ws : list World)
        (u53 : update53) (a : string) :
  Forall (fun w =>
            e (fst (GetPublicIP w (forceip u53) (getip u53))) = None ->
            ip (fst (GetPublicIP w (forceip u53) (getip u53))) = a) ws ->
  List.length (mutations (snd (cycles ws u53))) <= 1 /\
  (previousip u53 = a -> mutations (snd (cycles ws u53)) = []).
Proof.
  intro Hall.
  assert (Hgen : forall u,
             forceip u = forceip u53 -> getip u = getip u53 ->
             List.length (mutations (snd (cycles ws u))) <= 1 /\
             (previousip u = a -> mutations (snd (cycles ws u)) = [])).
  { induction Hall as [|w ws Hw _ IH]; intros u Hf Hg.
    - split; [apply Nat.le_0_l|reflexivity].
    - rewrite cycles_cons. cbn [snd]. rewrite mutations_app.
      destruct (cycle_receiver w u) as [p Hrec].
      assert (Hf' : forceip (fst (updatehostname w u)) = forceip u53)
        by (rewrite Hrec; exact Hf).
      assert (Hg' : getip (fst (updatehostname w u)) = getip u53)
        by (rewrite Hrec; exact Hg).
      destruct (IH _ Hf' Hg') as [Hle Hzero].
      destruct (cycle_cache w u)
        as [[Hm Hsame]
           |(r & t1 & z & t2 & _ & Hr & He & Hp & _ & _ & Hm & Hc)].
      + rewrite Hm. cbn [app]. rewrite Hsame in Hzero.
        split; [exact Hle|exact Hzero].
      + assert (Ha : ip r = a).
        { rewrite Hf, Hg in Hr. rewrite Hr in Hw. apply Hw. exact He. }
        rewrite Hm, Hzero by congruence.
        split; [apply Nat.le_refl|]. intro Hpa. congruence. }
  apply Hgen; reflexivity.
Qed.

Lemma steady_address_one_change_witness :
  List.length
    (mutations
       (snd (@cycles asciiV4
               [route53Only [mkHostedZone "example.org." "Z0"] None;
                route53Only [mkHostedZone "example.com." "Z123"] None;
                route53Only [mkHostedZone "example.com." "Z123"] None;
                route53Only [mkHostedZone "example.com." "Z123"] None]
               homeConfig))) <= 1.
Proof.
  apply (@steady_address_one_change asciiV4
           [route53Only [mkHostedZone "example.org." "Z0"] None;
            route53Only [mkHostedZone "example.com." "Z123"] None;
            route53Only [mkHostedZone "example.com." "Z123"] None;
            route53Only [mkHostedZone "example.com." "Z123"] None]
           homeConfig "203.0.113.5").
  repeat constructor.
Defined.

(** The run of the witness above does submit its one change, in its
    second cycle. *)
Example steady_run_submits_once :
  mutations
    (snd (@cycles asciiV4
            [route53Only [mkHostedZone "example.org." "Z0"] None;
             route53Only [mkHostedZone "example.com." "Z123"] None;
             route53Only [mkHostedZone "example.com." "Z123"] None;
             route53Only [mkHostedZone "example.com." "Z123"] None]
            homeConfig))
  = [changeParams "home.example.com." "203.0.113.5" "Z123"].
Proof. reflexivity. Qed.

(** ** The calls of a cycle *)

Lemma resolver_calls `{GoLib} (w : World) (ip0 geturl : string)
      (r : PublicIP) (t1 : list Event) :
  GetPublicIP w ip0 geturl = (r, t1) ->
  filter isNetworkCall t1 = t1 /\ List.length t1 <= 1 /\
  filter isLog t1 = [] /\ (ip0 <> "" -> t1 = []).
Proof.
  intro Hr. replace t1 with (snd (GetPublicIP w ip0 geturl))
    by (rewrite Hr; reflexivity).
  rewrite GetPublicIP_trace. unfold candidate, getFromURL, getFromMetadata.
  destruct (ip0 =? "") eqn:Hi.
  - assert (Hno : ip0 <> "" -> False)
      by (intro Hne; apply String.eqb_eq in Hi; contradiction).
    destruct (geturl =? ""); cbn [negb].
    + cbn. repeat split; auto. intro Hne. destruct (Hno Hne).
    + destruct (http_Get w geturl); cbn; repeat split; auto;
        intro Hne; destruct (Hno Hne).
  - cbn. repeat split; auto.
Qed.

Lemma zone_calls (w : World) (host hz : string)
      (z : futureAns) (t2 : list Event) :
  getHostedZoneID w host hz = (z, t2) ->
  filter isNetworkCall t2 = t2 /\ List.length t2 <= 1 /\
  filter isLog t2 = [] /\ (hz <> "" -> t2 = []).
Proof.
  intro Hz. replace t2 with (snd (getHostedZoneID w host hz))
    by (rewrite Hz; reflexivity).
  unfold getHostedZoneID.
  destruct (hz =? "") eqn:Hi; cbn [negb].
  - assert (Hno : hz <> "" -> False)
      by (intro Hne; apply String.eqb_eq in Hi; contradiction).
    destruct (ListHostedZones w) as [resp [err|]];
      [|destruct (findHostedZone host resp)];
      cbn; repeat split; auto; intro Hne; destruct (Hno Hne).
  - cbn. repeat split; auto.
Qed.

Lemma logIf_no_call (cond : bool) (msg : string) :
  filter isNetworkCall (logIf cond msg) = [].
Proof. destruct cond; reflexivity. Qed.

(** X14. A cycle makes at most three calls to the outside (one address
    source, one listing, one change); when both a forced address and a
    zone id are given, the change is the only call it can make. *)
Theorem cycle_call_budget `{GoLib} (w : World) (u53 : update53) :
  List.length (filter isNetworkCall (snd (updatehostname w u53))) <= 3 /\
  (forceip u53 <> "" -> hostedzone u53 <> "" ->
   filter isNetworkCall (snd (updatehostname w u53)) =
   map EvChangeResourceRecordSets (mutations (snd (updatehostname w u53)))).
Proof.
  destruct (updatehostname_Cycle w u53)
    as [Hh|Hh Hf Hv|r t1 err Hh Hpre Hr He|r t1 Hh Hpre Hr He Hp
        |r t1 z t2 err Hh Hpre Hr He Hp Hz Hfe
        |r t1 z t2 Hh Hpre Hr He Hp Hz Hfe];
    cbn [snd];
    try (destruct (resolver_calls _ _ _ _ _ Hr) as (Hn1 & Hl1 & _ & He1));
    try (destruct (zone_calls _ _ _ _ _ Hz) as (Hn2 & Hl2 & _ & He2));
    resolver_facts; read_trace;
    cbn [filter isNetworkCall];
    rewrite ?filter_app; cbn [filter isNetworkCall];
    rewrite ?filter_app; cbn [filter isNetworkCall];
    rewrite ?logIf_no_call, ?Hn1, ?Hn2, ?app_nil_r;
    rewrite ?length_app; cbn [List.length map].
  - split; [lia|reflexivity].
  - split; [lia|reflexivity].
  - split; [lia|]. intros Hf _. apply He1. exact Hf.
  - split; [lia|]. intros Hf _. apply He1. exact Hf.
  - split; [lia|]. intros Hf Hhz. rewrite (He1 Hf), (He2 Hhz). reflexivity.
  - split; [lia|]. intros Hf Hhz. rewrite (He1 Hf), (He2 Hhz). reflexivity.
Qed.

(** X15. A cycle that finds the address unchanged calls nothing but its
    address source: it launches no zone lookup, lists no zones, submits
    no change, and leaves the cache as it was. *)
Theorem unchanged_cycle_is_quiet `{GoLib} (w : World) (u53 : update53) :
  unchanged w u53 = true ->
  filter isNetworkCall (snd (updatehostname w u53)) =
  snd (GetPublicIP w (forceip u53) (getip u53)) /\
  zoneLookups (snd (updatehostname w u53)) = [] /\
  mutations (snd (updatehostname w u53)) = [] /\
  fst (updatehostname w u53) = set_hostname u53 (normalized (hostname u53)).
Proof.
  unfold unchanged. intro Hun.
  apply Bool.andb_true_iff in Hun. destruct Hun as [Hun Hgate].
  apply Bool.andb_true_iff in Hun. destruct Hun as [Hh Hpre].
  destruct (updatehostname_Cycle w u53)
    as [Hh'|_ Hf Hv|r t1 err _ _ Hr He|r t1 _ _ Hr He Hp
        |r t1 z t2 err _ _ Hr He Hp Hz Hfe
        |r t1 z t2 _ _ Hr He Hp Hz Hfe];
    try (rewrite Hr in Hgate; cbn [fst] in Hgate; rewrite He in Hgate);
    try discriminate;
    try (apply String.eqb_neq in Hp; congruence).
  - rewrite Hh' in Hh. discriminate.
  - rewrite Hv, (eqb_empty_false _ Hf) in Hpre. discriminate.
  - rewrite Hr. cbn [fst snd].
    destruct (resolver_calls _ _ _ _ _ Hr) as (Hn1 & _).
    resolver_facts. read_trace.
    cbn [filter isNetworkCall]. rewrite filter_app, logIf_no_call, Hn1.
    rewrite app_nil_r. repeat split.
Qed.

Lemma unchanged_cycle_is_quiet_witness :
  filter isNetworkCall
    (snd (@updatehostname asciiV4
            (servedWorld "198.51.100.7" "" [mkHostedZone "example.com." "Z1"]
                         None)
            (mkUpdate53 "198.51.100.7" "" "http://ip.example.net/"
                        "home.example.com" "" true true false)))
  = [EvHttpGet "http://ip.example.net/"].
Proof.
  apply (@unchanged_cycle_is_quiet asciiV4
           (servedWorld "198.51.100.7" "" [mkHostedZone "example.com." "Z1"]
                        None)
           (mkUpdate53 "198.51.100.7" "" "http://ip.example.net/"
                       "home.example.com" "" true true false)).
  reflexivity.
Defined.

Lemma logIf_only_logs (cond : bool) (msg : string) :
  filter (fun ev => negb (isLog ev)) (logIf cond msg) = [] /\
  filter isLog (logIf false msg) = [].
Proof. destruct cond; split; reflexivity. Qed.

(** X16. The flags [daemon], [verbose] and [debug] steer nothing in a
    cycle: with other values for them the cycle leaves the same cache and
    the same hostname, and its trace differs in log lines only; and with
    [verbose] off the cycle logs nothing. *)
Theorem flags_do_not_steer_cycle `{GoLib} (w : World) (u53 : update53)
        (d v dbg : bool) :
  let u53' :=
    mkUpdate53 (previousip u53) (forceip u53) (getip u53) (hostname u53)
               (hostedzone u53) d v dbg in
  filter (fun ev => negb (isLog ev)) (snd (updatehostname w u53')) =
  filter (fun ev => negb (isLog ev)) (snd (updatehostname w u53)) /\
  previousip (fst (updatehostname w u53')) =
  previousip (fst (updatehostname w u53)) /\
  hostname (fst (updatehostname w u53')) =
  hostname (fst (updatehostname w u53)) /\
  (verbose u53 = false ->
   filter isLog (snd (updatehostname w u53)) = []).
Proof.
  destruct u53 as [p f g h hz d0 v0 dbg0]. cbv zeta.
  unfold updatehostname.
  cbn [previousip forceip getip hostname hostedzone daemon verbose debug].
  destruct (h =? ""); [repeat split|].
  destruct (HasSuffix h "."); cbn [negb set_hostname previousip forceip getip
                                   hostname hostedzone daemon verbose debug];
    (destruct (negb (f =? "") && negb (ParseIP f)); [repeat split|]);
    (destruct (GetPublicIP w f g) as [r t1] eqn:Hr);
    (destruct (resolver_calls _ _ _ _ _ Hr) as (_ & _ & Hlog1 & _));
    (destruct (e r); [|destruct (p =? ip r);
       [|match goal with
         | |- context [getHostedZoneID ?w' ?h' ?z'] =>
             destruct (getHostedZoneID w' h' z') as [z t2] eqn:Hz;
             destruct (zone_calls _ _ _ _ _ Hz) as (_ & _ & Hlog2 & _);
             destruct (fe z)
         end]]);
    cbn [fst snd set_previousip previousip hostname filter isLog negb];
    rewrite ?filter_app;
    cbn [fst snd set_previousip previousip hostname filter isLog negb];
    rewrite ?filter_app;
    cbn [fst snd set_previousip previousip hostname filter isLog negb];
    rewrite ?(proj1 (logIf_only_logs _ _)), ?Hlog1, ?Hlog2;
    (split; [reflexivity|]); (split; [reflexivity|]);
    (split; [reflexivity|]); intro Hv; rewrite ?Hv; reflexivity.
Qed.

(** ** main *)

Lemma launches_app (a1 a2 : list MainAction) :
  launches (a1 ++ a2) = launches a1 + launches a2.
Proof.
  induction a1 as [|act a1 IH]; simpl; [reflexivity|].
  destruct act; simpl; rewrite IH; reflexivity.
Qed.

Lemma launches_mainLog (cond : bool) (msg : string) :
  launches (mainLog cond msg) = 0.
Proof. destruct cond; reflexivity. Qed.

(** In daemon mode the loop goes on as long as no signal comes. *)
Lemma mainLoop_daemon_waits (u53 : update53) (evs : list Selected) :
  daemon u53 = true -> forallb (fun ev => negb (isSignal ev)) evs = true ->
  snd (mainLoop u53 evs) = Waiting /\
  launches (fst (mainLoop u53 evs)) = ticks evs.
Proof.
  intros Hd. induction evs as [|ev evs IH]; intro Hns; [split; reflexivity|].
  cbn [forallb] in Hns. apply Bool.andb_true_iff in Hns.
  destruct Hns as [Hev Hns]. destruct (IH Hns) as [Hw Hl].
  cbn [mainLoop]. rewrite Hd. cbn [negb].
  destruct (mainLoop u53 evs) as [more st]. cbn [fst snd] in Hw, Hl.
  destruct ev as [|err|sig]; cbn [selectCase]; [| |discriminate Hev];
    cbn [fst snd]; rewrite ?launches_app, ?launches_mainLog;
    [|destruct err]; cbn; rewrite Hl; split; auto.
Qed.

(** In daemon mode the first signal ends the loop; what would come after
    it is not looked at. *)
Lemma mainLoop_daemon_signal (u53 : update53) (pre post : list Selected)
      (sig : string) :
  daemon u53 = true -> forallb (fun ev => negb (isSignal ev)) pre = true ->
  mainLoop u53 (pre ++ Signal sig :: post) = mainLoop u53 (pre ++ [Signal sig])
  /\ snd (mainLoop u53 (pre ++ Signal sig :: post)) = Exited 0 /\
  launches (fst (mainLoop u53 (pre ++ Signal sig :: post))) = ticks pre.
Proof.
  intros Hd. induction pre as [|ev pre IH]; intro Hns.
  - cbn [app mainLoop selectCase]. rewrite Hd. cbn [negb].
    cbn [fst snd]. rewrite launches_app, !launches_mainLog.
    repeat split.
  - cbn [forallb] in Hns. apply Bool.andb_true_iff in Hns.
    destruct Hns as [Hev Hns]. destruct (IH Hns) as (Heq & Hst & Hl).
    cbn [app mainLoop]. rewrite Hd. cbn [negb]. rewrite <- Heq.
    destruct (mainLoop u53 (pre ++ Signal sig :: post)) as [more st].
    cbn [fst snd] in Hst, Hl.
    destruct ev as [|err|sig']; cbn [selectCase]; [| |discriminate Hev];
      cbn [fst snd]; rewrite ?launches_app, ?launches_mainLog;
      [|destruct err]; cbn; rewrite Hl; repeat split; auto.
Qed.

(** X17. Given both -forceip and -getip, [main] logs one error and exits
    with status 1 without starting a cycle, whatever would happen next;
    otherwise the first thing it does is to start a cycle, before it
    waits for any tick. *)
Theorem both_sources_rejected (fi gi host hz : string) (d v dbg : bool)
        (evs : list Selected) :
  (fi <> "" -> gi <> "" ->
   main fi gi host hz d v dbg evs =
   ([LogLine "error - can not supply both -forceip and -getip"], Exited 1))
  /\
  (fi = "" \/ gi = "" ->
   exists acts, fst (main fi gi host hz d v dbg evs) = Launch :: acts).
Proof.
  unfold main. split.
  - intros Hf Hg. rewrite (eqb_empty_false _ Hf), (eqb_empty_false _ Hg).
    reflexivity.
  - intros [Hf|Hg]; subst; cbn [String.eqb negb andb];
      rewrite ?Bool.andb_false_r;
      destruct (mainLoop _ evs) as [acts st]; exists acts; reflexivity.
Qed.

Lemma both_sources_rejected_witness :
  main "203.0.113.5" "http://ip.example.net/" "home.example.com" ""
       true true true [Tick; Result None; Signal "interrupt"]
  = ([LogLine "error - can not supply both -forceip and -getip"], Exited 1).
Proof.
  apply (proj1 (both_sources_rejected
                  "203.0.113.5" "http://ip.example.net/" "home.example.com"
                  "" true true true [Tick; Result None; Signal "interrupt"]));
    discriminate.
Defined.

(** X18. Without -daemon, [main] handles exactly one event and returns:
    the events after the first are not looked at, the exit status is 0,
    and the cycles started are the initial one and, when the first event
    is a tick, a second one whose result is never read. *)
Theorem single_shot_one_event (fi gi host hz : string) (v dbg : bool)
        (ev : Selected) (evs : list Selected) :
  fi = "" \/ gi = "" ->
  main fi gi host hz false v dbg (ev :: evs) =
  main fi gi host hz false v dbg [ev] /\
  snd (main fi gi host hz false v dbg (ev :: evs)) = Exited 0 /\
  launches (fst (main fi gi host hz false v dbg (ev :: evs))) =
  match ev with
  | Tick => 2
  | _ => 1
  end.
Proof.
  intro Hsrc. unfold main.
  assert (Hok : negb (fi =? "") && negb (gi =? "") = false).
  { destruct Hsrc; subst; cbn [String.eqb negb andb];
      rewrite ?Bool.andb_false_r; reflexivity. }
  rewrite Hok. cbn [mainLoop main_u53 daemon negb].
  destruct ev as [|err|sig]; cbn [selectCase fst snd];
    [| destruct err |]; cbn [fst snd launches];
    rewrite ?launches_app, ?launches_mainLog; repeat split.
Qed.

Lemma single_shot_one_event_witness :
  snd (main "" "" "home.example.com" "" false false false
            [Tick; Result (Some "late"); Signal "interrupt"]) = Exited 0 /\
  launches (fst (main "" "" "home.example.com" "" false false false
                      [Tick; Result (Some "late"); Signal "interrupt"])) = 2.
Proof.
  destruct (single_shot_one_event
              "" "" "home.example.com" "" false false
              Tick [Result (Some "late"); Signal "interrupt"])
    as (_ & Hst & Hl); [left; reflexivity|].
  split; [exact Hst|exact Hl].
Defined.

(** X19. With -daemon, [main] runs until a signal and only then returns:
    as long as none has come it is waiting, having started one cycle at
    the start and one per tick; at the first signal it exits with status
    0, and the events after the signal are not looked at. *)
Theorem daemon_runs_until_signal (fi gi host hz : string) (v dbg : bool)
        (pre post : list Selected) (sig : string) :
  fi = "" \/ gi = "" ->
  forallb (fun ev => negb (isSignal ev)) pre = true ->
  snd (main fi gi host hz true v dbg pre) = Waiting /\
  launches (fst (main fi gi host hz true v dbg pre)) = 1 + ticks pre /\
  main fi gi host hz true v dbg (pre ++ Signal sig :: post) =
  main fi gi host hz true v dbg (pre ++ [Signal sig]) /\
  snd (main fi gi host hz true v dbg (pre ++ Signal sig :: post)) = Exited 0
  /\
  launches (fst (main fi gi host hz true v dbg (pre ++ Signal sig :: post)))
  = 1 + ticks pre.
Proof.
  intros Hsrc Hns. unfold main.
  assert (Hok : negb (fi =? "") && negb (gi =? "") = false).
  { destruct Hsrc; subst; cbn [String.eqb negb andb];
      rewrite ?Bool.andb_false_r; reflexivity. }
  rewrite Hok.
  set (u53 := main_u53 fi gi host hz true v dbg).
  assert (Hd : daemon u53 = true) by reflexivity.
  destruct (mainLoop_daemon_waits u53 pre Hd Hns) as [Hw Hl].
  destruct (mainLoop_daemon_signal u53 pre post sig Hd Hns)
    as (Heq & Hst & Hl').
  rewrite <- Heq.
  destruct (mainLoop u53 pre) as [acts st].
  destruct (mainLoop u53 (pre ++ Signal sig :: post)) as [acts' st'].
  cbn [fst snd launches] in *. rewrite Hl, Hl'. repeat split; assumption.
Qed.

Lemma daemon_runs_until_signal_witness :
  snd (main "" "" "home.example.com" "" true false false
            [Result None; Tick; Result (Some "Throttling"); Tick])
  = Waiting /\
  launches
    (fst (main "" "" "home.example.com" "" true false false
               ([Result None; Tick; Result (Some "Throttling"); Tick]
                  ++ Signal "terminated" :: [Tick; Tick])%list)) = 3.
Proof.
  destruct (daemon_runs_until_signal
              "" "" "home.example.com" "" false false
              [Result None; Tick; Result (Some "Throttling"); Tick]
              [Tick; Tick] "terminated")
    as (Hw & _ & _ & _ & Hl); [left; reflexivity|reflexivity|].
  split; [exact Hw|exact Hl].
Defined.
